(** * FIX 4.4 market-data client: the embedder glue of
      [examples/C++/marketdata-client.cpp]

    The source file consumes the QuickFIX engine through the application
    callback surface.  This development embeds the code of that file:
    [splitCSV], the [App] callbacks and helpers, and [main].  The engine
    calls the file makes ([Session::sendToTarget], [SessionSettings::get],
    [FieldMap::getField], ...) are modelled by their contracts, and the
    results of the engine calls of [main] come from an oracle record. *)

From Stdlib Require Import ZArith List Ascii String Lia.
From stdpp Require Import base option gmap strings list fin_maps pretty.

Local Open Scope Z_scope.

(** ** Characters and strings *)

Definition comma : ascii := ","%char.
Definition nl : string := String "010"%char "".

(** [std::string::empty]. *)
Definition empty (s : string) : bool :=
  match s with
  | EmptyString => true
  | String _ _ => false
  end.

(** [std::string::push_back]. *)
Definition push_back (s : string) (c : ascii) : string := s +:+ String c "".

(** [s[0]] on a [std::string]: the first character, and the terminating
    null character when the string is empty. *)
Definition first_char (s : string) : ascii :=
  match s with
  | EmptyString => "000"%char
  | String c _ => c
  end.

(** ** splitCSV (source lines 20-25) *)

(** The body of the range-for: [out] and [cur] after the characters of [s]. *)
Fixpoint splitCSV_loop (s : string) (out : list string) (cur : string)
  : list string * string :=
  match s with
  | EmptyString => (out, cur)
  | String c s' =>
      if Ascii.eqb c comma
      then splitCSV_loop s' (if empty cur then out else out ++ [cur]) ""
      else splitCSV_loop s' out (push_back cur c)
  end.

Definition splitCSV_finish (st : list string * string) : list string :=
  let '(out, cur) := st in if empty cur then out else out ++ [cur].

Definition splitCSV (s : string) : list string :=
  splitCSV_finish (splitCSV_loop s [] "").

(** The specification's reading of [splitCSV], written independently of the
    loop: [comma_fields s] cuts [s] at every comma (so it lists all maximal
    comma-free substrings, the empty ones between adjacent commas included),
    and [nonempty_fields] keeps the non-empty ones. *)
Fixpoint comma_fields (s : string) : list string :=
  match s with
  | EmptyString => [""%string]
  | String c s' =>
      if Ascii.eqb c comma then ""%string :: comma_fields s'
      else match comma_fields s' with
           | [] => [String c ""]
           | f :: fs => String c f :: fs
           end
  end.

Definition nonempty_fields (s : string) : list string :=
  filter (fun f => empty f = false) (comma_fields s).

Fixpoint comma_free (s : string) : bool :=
  match s with
  | EmptyString => true
  | String c s' => negb (Ascii.eqb c comma) && comma_free s'
  end.

(** ** FIX messages as the engine's [FieldMap] presents them *)

(** A field map: tag to value, values in their wire (string) form. *)
Abbreviation Fields := (gmap Z string).

(** Header and body field maps and the repeating groups of the body, each
    group tag with its entries in order.  The trailer is never touched by
    the client and is left out. *)
Record Message := mkMessage {
  header : Fields;
  body : Fields;
  groups : gmap Z (list Fields)
}.

(** Tag numbers used by the client. *)
Definition BeginString : Z := 8.
Definition MsgType : Z := 35.
Definition Symbol : Z := 55.
Definition Text : Z := 58.
Definition NoRelatedSym : Z := 146.
Definition MDReqID : Z := 262.
Definition SubscriptionRequestType : Z := 263.
Definition MarketDepth : Z := 264.
Definition NoMDEntryTypes : Z := 267.
Definition NoMDEntries : Z := 268.
Definition MDEntryType : Z := 269.
Definition MDEntryPx : Z := 270.
Definition MDReqRejReason : Z := 281.
Definition Username : Z := 553.
Definition Password : Z := 554.

Definition MsgType_Logon : string := "A".

(** [FieldMap::setField] on the body: insert or overwrite. *)
Definition setField (tag : Z) (v : string) (m : Message) : Message :=
  {| header := header m; body := <[tag := v]> (body m); groups := groups m |}.

Definition isSetField (m : Message) (tag : Z) : bool :=
  bool_decide (is_Some (body m !! tag)).

(** The entries of the repeating group [tag] ([FieldMap::groupCount] is
    their number). *)
Definition group_entries (m : Message) (tag : Z) : list Fields :=
  default [] (groups m !! tag).

(** [FieldMap::addGroup(tag, g)]: append a copy of the entry and set the
    count field to the new number of entries. *)
Definition addGroup (tag : Z) (g : Fields) (m : Message) : Message :=
  let gs := group_entries m tag ++ [g] in
  {| header := header m;
     body := <[tag := pretty (Z.of_nat (length gs))]> (body m);
     groups := <[tag := gs]> (groups m) |}.

(** [FIX44::MarketDataRequest(MDReqID, SubscriptionRequestType, MarketDepth)]. *)
Definition MarketDataRequest (reqid srt depth : string) : Message :=
  {| header := {[ BeginString := "FIX.4.4"%string; MsgType := "V"%string ]};
     body := {[ MDReqID := reqid; SubscriptionRequestType := srt;
                MarketDepth := depth ]};
     groups := ∅ |}.

(** [IntConvertor::convert]: an optional minus sign and at least one decimal
    digit, nothing else.  The value is kept in [Z]; the counts of the
    messages at hand are far inside the range of [int]. *)
Definition digit_of (c : ascii) : option Z :=
  let n := Z.of_nat (nat_of_ascii c) in
  if (48 <=? n) && (n <=? 57) then Some (n - 48) else None.

Fixpoint digits_value (s : string) (acc : Z) : option Z :=
  match s with
  | EmptyString => Some acc
  | String c s' =>
      match digit_of c with
      | Some d => digits_value s' (10 * acc + d)
      | None => None
      end
  end.

Definition int_convert (s : string) : option Z :=
  match s with
  | EmptyString => None
  | String "-"%char EmptyString => None
  | String "-"%char s' => Z.opp <$> digits_value s' 0
  | _ => digits_value s 0
  end.

(** ** Sessions and settings *)

Record SessionID := mkSessionID {
  beginString : string;
  senderCompID : string;
  targetCompID : string;
  sessionQualifier : string
}.

#[global] Instance SessionID_eq_dec : EqDecision SessionID.
Proof. solve_decision. Defined.

(** The default-constructed [FIX::SessionID]. *)
Definition SessionID_default : SessionID := mkSessionID "" "" "" "".

(** [operator<<] on a session identifier. *)
Definition SessionID_toString (s : SessionID) : string :=
  beginString s +:+ ":" +:+ senderCompID s +:+ "->" +:+ targetCompID s
  +:+ (if empty (sessionQualifier s) then "" else ":" +:+ sessionQualifier s).

(** A [FIX::Dictionary]: setting name to value. *)
Abbreviation Dictionary := (gmap string string).

(** [FIX::SessionSettings]: the per-session dictionaries, kept in the
    iteration order of the underlying ordered map. *)
Definition SessionSettings := list (SessionID * Dictionary).

Fixpoint settings_lookup (cfg : SessionSettings) (sid : SessionID)
  : option Dictionary :=
  match cfg with
  | [] => None
  | (k, d) :: rest => if decide (k = sid) then Some d else settings_lookup rest sid
  end.

(** [SessionSettings::getSessions]. *)
Definition getSessions (cfg : SessionSettings) : list SessionID := map fst cfg.

(** ** Exceptions, effects and the client's state *)

Inductive Exn :=
| ConfigError (detail : string)
| SessionNotFound
| FieldNotFound (tag : Z)
| IncorrectDataFormat (tag : Z)
| UnsupportedMessageType
| InvalidArgument (what : string)
| RuntimeError (what : string).

(** [std::exception::what]. *)
Definition what (e : Exn) : string :=
  match e with
  | ConfigError d => "Configuration failed: " +:+ d
  | SessionNotFound => "Session Not Found"
  | FieldNotFound _ => "Field not found"
  | IncorrectDataFormat _ => "Incorrect data format for value"
  | UnsupportedMessageType => "Unsupported Message Type"
  | InvalidArgument w => w
  | RuntimeError w => w
  end.

(** What the client does to the outside, apart from console text. *)
Inductive Action :=
| SendToTarget (m : Message) (sid : SessionID)
| NotifyAll
| Start
| Logout (sid : SessionID) (reason : string)
| Sleep (ms : Z)
| Stop.

(** The mutable members of [App] ([sid_], [firstData_]) together with the
    console streams, the engine-facing actions in program order, and the
    time in milliseconds. *)
Record World := mkWorld {
  sid_ : SessionID;
  firstData_ : bool;
  cout : string;
  cerr : string;
  actions : list Action;
  clock : nat
}.

(** What [App] only reads: the settings it holds by const reference and
    the sessions registered with the engine. *)
Record Ctx := mkCtx {
  settings_ : SessionSettings;
  registry : list SessionID
}.

(** How a computation ends: normally, by an exception, or with the process
    gone through [std::terminate]. *)
Inductive Result (A : Type) :=
| Ok (a : A)
| Thrown (e : Exn)
| Terminated.
Arguments Ok {A} a.
Arguments Thrown {A} e.
Arguments Terminated {A}.

(** Effects made before a throw persist. *)
Definition M (A : Type) : Type := World -> Result A * World.

Definition ret {A} (a : A) : M A := fun w => (Ok a, w).
Definition throw {A} (e : Exn) : M A := fun w => (Thrown e, w).
Definition bind {A B} (m : M A) (k : A -> M B) : M B :=
  fun w => match m w with
           | (Ok a, w') => k a w'
           | (Thrown e, w') => (Thrown e, w')
           | (Terminated, w') => (Terminated, w')
           end.

#[global] Instance M_ret : MRet M := @ret.
#[global] Instance M_bind : MBind M := fun A B k m => bind m k.

(** [try { body } catch (const std::exception& e) { handler }]. *)
Definition try_catch {A} (body : M A) (handler : Exn -> M A) : M A :=
  fun w => match body w with
           | (Thrown e, w') => handler e w'
           | r => r
           end.

(** A dynamic exception specification [throw(...)]: an exception outside
    the list ends the process. *)
Definition throw_spec {A} (listed : Exn -> bool) (m : M A) : M A :=
  fun w => match m w with
           | (Thrown e, w') => if listed e then (Thrown e, w') else (Terminated, w')
           | r => r
           end.

(** A [noexcept] function: an exception leaving it ends the process. *)
Definition noexcept {A} (m : M A) : M A :=
  fun w => match m w with
           | (Thrown e, w') => (Terminated, w')
           | r => r
           end.

(** The updates of the world. *)
Definition add_cout (s : string) (w : World) : World :=
  {| sid_ := sid_ w; firstData_ := firstData_ w; cout := cout w +:+ s;
     cerr := cerr w; actions := actions w; clock := clock w |}.

Definition add_cerr (s : string) (w : World) : World :=
  {| sid_ := sid_ w; firstData_ := firstData_ w; cout := cout w;
     cerr := cerr w +:+ s; actions := actions w; clock := clock w |}.

Definition add_action (a : Action) (w : World) : World :=
  {| sid_ := sid_ w; firstData_ := firstData_ w; cout := cout w;
     cerr := cerr w; actions := actions w ++ [a]; clock := clock w |}.

Definition with_sid (sid : SessionID) (w : World) : World :=
  {| sid_ := sid; firstData_ := firstData_ w; cout := cout w;
     cerr := cerr w; actions := actions w; clock := clock w |}.

Definition with_firstData (b : bool) (w : World) : World :=
  {| sid_ := sid_ w; firstData_ := b; cout := cout w;
     cerr := cerr w; actions := actions w; clock := clock w |}.

Definition later (w : World) : World :=
  {| sid_ := sid_ w; firstData_ := firstData_ w; cout := cout w;
     cerr := cerr w; actions := actions w; clock := S (clock w) |}.

(** [std::cout << s] and [std::cerr << s]. *)
Definition print (s : string) : M unit := fun w => (Ok tt, add_cout s w).
Definition eprint (s : string) : M unit := fun w => (Ok tt, add_cerr s w).

Definition act (a : Action) : M unit := fun w => (Ok tt, add_action a w).

Definition set_sid (sid : SessionID) : M unit :=
  fun w => (Ok tt, with_sid sid w).

(** [firstData_.store(b)] and [firstData_.load()]. *)
Definition store_firstData (b : bool) : M unit :=
  fun w => (Ok tt, with_firstData b w).

Definition load_firstData : M bool := fun w => (Ok (firstData_ w), w).

Definition get_sid : M SessionID := fun w => (Ok (sid_ w), w).

(** One millisecond passes. *)
Definition advance : M unit := fun w => (Ok tt, later w).

Definition now : M nat := fun w => (Ok (clock w), w).

Definition lift {A} (e : Exn) (o : option A) : M A :=
  match o with
  | Some a => ret a
  | None => throw e
  end.

(** [FieldMap::getField]: throws [FieldNotFound]. *)
Definition getField (f : Fields) (tag : Z) : M string :=
  lift (FieldNotFound tag) (f !! tag).

(** [FieldMap::getGroup(num, tag)], entries counted from 1: throws
    [FieldNotFound] when there is no such entry. *)
Definition getGroup (m : Message) (num : Z) (tag : Z) : M Fields :=
  if num <=? 0 then throw (FieldNotFound tag)
  else lift (FieldNotFound tag) (group_entries m tag !! Z.to_nat (num - 1)).

(** [IntField::getValue]: throws [IncorrectDataFormat]. *)
Definition getValue (tag : Z) (v : string) : M Z :=
  lift (IncorrectDataFormat tag) (int_convert v).

(** [SessionSettings::get]: throws [ConfigError]. *)
Definition settings_get (cx : Ctx) (sid : SessionID) : M Dictionary :=
  lift (ConfigError "Session not found") (settings_lookup (settings_ cx) sid).

(** [Session::sendToTarget(msg, sid)]: hands the message to the session
    registered under [sid]; throws [SessionNotFound] when there is none. *)
Definition sendToTarget (cx : Ctx) (m : Message) (sid : SessionID) : M unit :=
  if bool_decide (sid ∈ registry cx) then act (SendToTarget m sid)
  else throw SessionNotFound.

(** ** What the C++ implementation decides

    [std::stod] and [operator<<(double)] are the C++ library's; the client
    only passes a price through them.  They are kept abstract: [stod]
    answers [None] where the library throws.

    The output expression of line 68 has the call [n.getValue()], which
    can throw, among its operands, after the three insertions of ["W: "],
    the symbol and [" entries="].  Since C++17 these insertions are made
    before the call; before C++17 the language leaves the moment of the
    call open, and it can come before them or between any two of them.
    [insertions_before_count] is the number of these insertions that have
    been made when the call is evaluated: 0 when the operand comes first,
    3 (or more) when evaluation goes from left to right. *)
Class Numeric := {
  double : Type;
  stod : string -> option double;
  show_double : double -> string;
  insertions_before_count : nat
}.

(** ** The application object (source lines 27-109) *)

Section App.
Context `{Numeric}.
Variable cx : Ctx.

(** [d.has("Symbols") ? d.getString("Symbols") : "GBPUSD"]. *)
Definition symbols_raw (d : Dictionary) : string :=
  match d !! "Symbols"%string with
  | Some v => v
  | None => "GBPUSD"%string
  end.

(** The range-for over [splitCSV(raw)] adding one [NoRelatedSym] entry per
    symbol. *)
Definition add_symbols (syms : list string) (req : Message) : Message :=
  fold_left (fun r s => addGroup NoRelatedSym {[ Symbol := s ]} r) syms req.

(** Lines 81-89. *)
Definition subscribe_request (d : Dictionary) : Message :=
  let req := MarketDataRequest "REQ-1" "1" "1" in
  let req := addGroup NoMDEntryTypes {[ MDEntryType := "0"%string ]} req in
  let req := addGroup NoMDEntryTypes {[ MDEntryType := "1"%string ]} req in
  add_symbols (splitCSV (symbols_raw d)) req.

Definition sendSubscribe : M unit :=
  sid ← get_sid;
  d ← settings_get cx sid;
  sendToTarget cx (subscribe_request d) sid.

(** Lines 91-97. *)
Definition unsubscribe_request (d : Dictionary) : Message :=
  let u := MarketDataRequest "REQ-1" "2" "0" in
  add_symbols (splitCSV (symbols_raw d)) u.

Definition sendUnsubscribeAll : M unit :=
  sid ← get_sid;
  d ← settings_get cx sid;
  sendToTarget cx (unsubscribe_request d) sid.

(** Lines 31-35. *)
Definition onCreate (sid : SessionID) : M unit := set_sid sid.

Definition onLogon (sid : SessionID) : M unit :=
  print ("Logon: " +:+ SessionID_toString sid +:+ nl);;
  sendSubscribe.

Definition onLogout (sid : SessionID) : M unit :=
  print ("Logout: " +:+ SessionID_toString sid +:+ nl).

(** Lines 37-44.  The hook edits the message in place; here it returns the
    edited message. *)
Definition toAdmin (msg : Message) (sid : SessionID) : M Message :=
  noexcept (
    mt ← getField (header msg) MsgType;
    if String.eqb mt MsgType_Logon then
      own ← get_sid;
      d ← settings_get cx own;
      let msg := match d !! "Username"%string with
                 | Some u => setField Username u msg
                 | None => msg
                 end in
      let msg := match d !! "Password"%string with
                 | Some p => setField Password p msg
                 | None => msg
                 end in
      mret msg
    else mret msg).

(** Lines 46-49: empty bodies. *)
Definition fromAdmin (msg : Message) (sid : SessionID) : M unit := mret tt.
Definition toApp (msg : Message) (sid : SessionID) : M unit := mret tt.

(** Lines 57-63. *)
Definition onMessage_MarketDataRequestReject (rej : Message) : M unit :=
  id ← (if isSetField rej MDReqID then getField (body rej) MDReqID else mret ""%string);
  rs ← (if isSetField rej MDReqRejReason then getField (body rej) MDReqRejReason
        else mret ""%string);
  tx ← (if isSetField rej Text then getField (body rej) Text else mret ""%string);
  print ("MD Reject (35=Y) MDReqID=" +:+ id +:+ " reason(281)=" +:+ rs
         +:+ " text=" +:+ tx +:+ nl).

(** Line 73, left operand: the label of an entry. *)
Definition side_label (t : ascii) : string :=
  if Ascii.eqb t "0"%char then "BID"%string else "ASK"%string.

(** Lines 70-73: the body of the loop for the entry numbered [i] of [n]. *)
Definition snapshot_entry (snap : Message) (n i : Z) : M unit :=
  g ← getGroup snap i NoMDEntries;
  ty ← getField g MDEntryType;
  let t := first_char ty in
  pxs ← getField g MDEntryPx;
  px ← lift (InvalidArgument "stod") (stod pxs);
  print (side_label t +:+ "=" +:+ show_double px
         +:+ (if i <? n then " | "%string else ""%string)).

(** Lines 69-74: [k] further iterations starting at entry [i]. *)
Fixpoint snapshot_entries (snap : Message) (n : Z) (k : nat) (i : Z) : M unit :=
  match k with
  | O => mret tt
  | S k' => snapshot_entry snap n i;; snapshot_entries snap n k' (i + 1)
  end.

(** Line 68: the insertions to the left of the operand [n.getValue()]. *)
Definition head_parts (sym : string) : list string :=
  ["W: "; sym; " entries="]%string.

(** The text that a run of insertions puts on a stream. *)
Fixpoint inserted (parts : list string) : string :=
  match parts with
  | [] => ""%string
  | p :: rest => p +:+ inserted rest
  end.

(** Lines 65-78.  [snap.get(n)] of line 67 only fetches the count field;
    the count is converted by [n.getValue()] in line 68, where
    [insertions_before_count] of the insertions to its left are made before
    the conversion and the others after it, so a count that is no integer
    throws with that much of the line printed.  The loop
    [for (int i=1; i<=n; ++i)] makes [Z.to_nat n] iterations. *)
Definition onMessage_MarketDataSnapshotFullRefresh (snap : Message) : M unit :=
  sym ← getField (body snap) Symbol;
  cnt ← getField (body snap) NoMDEntries;
  print (inserted (take insertions_before_count (head_parts sym)));;
  n ← getValue NoMDEntries cnt;
  print (inserted (drop insertions_before_count (head_parts sym))
         +:+ pretty n +:+ " :: ");;
  snapshot_entries snap n (Z.to_nat n) 1;;
  print nl;;
  store_firstData true;;
  act NotifyAll.

(** The admin message types, for which the cracker's default handlers are
    empty; the default handler of every other type throws. *)
Definition admin_types : list string :=
  ["0"; "1"; "2"; "3"; "4"; "5"; "A"]%string.

(** Lines 51-54: [crack] dispatches a FIX 4.4 message on its type to the
    two overridden handlers.  The session is a FIX 4.4 one; a message of
    another version, which the engine does not deliver to it, has no
    handler here. *)
Definition crack (msg : Message) (sid : SessionID) : M unit :=
  bs ← getField (header msg) BeginString;
  mt ← getField (header msg) MsgType;
  if negb (String.eqb bs "FIX.4.4") then throw UnsupportedMessageType
  else if String.eqb mt "Y" then onMessage_MarketDataRequestReject msg
  else if String.eqb mt "W" then onMessage_MarketDataSnapshotFullRefresh msg
  else if bool_decide (mt ∈ admin_types) then mret tt
  else throw UnsupportedMessageType.

(** The exceptions of the specification of [fromApp] that this development
    has. *)
Definition fromApp_listed (e : Exn) : bool :=
  match e with
  | FieldNotFound _ | IncorrectDataFormat _ | UnsupportedMessageType => true
  | _ => false
  end.

Definition fromApp (msg : Message) (sid : SessionID) : M unit :=
  throw_spec fromApp_listed (crack msg sid).

(** ** The I/O worker *)

(** The callbacks of the engine. *)
Inductive Callback :=
| OnCreate (sid : SessionID)
| OnLogon (sid : SessionID)
| OnLogout (sid : SessionID)
| ToAdmin (msg : Message) (sid : SessionID)
| FromAdmin (msg : Message) (sid : SessionID)
| ToApp (msg : Message) (sid : SessionID)
| FromApp (msg : Message) (sid : SessionID).

Definition run_callback (cb : Callback) : M unit :=
  match cb with
  | OnCreate sid => onCreate sid
  | OnLogon sid => onLogon sid
  | OnLogout sid => onLogout sid
  | ToAdmin msg sid => toAdmin msg sid;; mret tt
  | FromAdmin msg sid => fromAdmin msg sid
  | ToApp msg sid => toApp msg sid
  | FromApp msg sid => fromApp msg sid
  end.

(** What the file does not decide: the results of the engine calls of
    [main], the callbacks the worker delivers in each millisecond, the
    milliseconds in which a thread waiting on [cv_] is woken, which
    exceptions from a callback the engine answers itself (any other one
    leaves the worker thread and ends the process), and how long the
    operator takes to press Enter. *)
Record Engine := mkEngine {
  load_settings : string -> Exn + SessionSettings;
  create_sessions : SessionSettings -> Exn + list SessionID;
  start_result : option Exn;
  worker : nat -> list Callback;
  woken : nat -> bool;
  absorbs : Exn -> bool;
  enter_delay : nat
}.

Variable eng : Engine.

Definition absorbed (m : M unit) : M unit :=
  fun w => match m w with
           | (Thrown e, w') => if absorbs eng e then (Ok tt, w') else (Terminated, w')
           | r => r
           end.

Fixpoint run_callbacks (cbs : list Callback) : M unit :=
  match cbs with
  | [] => mret tt
  | cb :: rest => absorbed (run_callback cb);; run_callbacks rest
  end.

(** One millisecond of the worker. *)
Definition tick : M unit :=
  advance;; t ← now; run_callbacks (worker eng t).

(** The calling thread is blocked for [k] milliseconds. *)
Fixpoint block (k : nat) : M unit :=
  match k with
  | O => mret tt
  | S k' => tick;; block k'
  end.

(** ** The wait for first data (lines 99-102)

    [cv_.wait_for(lk, d, pred)] is
    [while (!pred()) if (wait_until(lk, now + d) == timeout) return pred();
     return true;].
    [wait_until_pred left] is that loop entered with [pred()] false and
    [left] milliseconds to the deadline: the thread sleeps; in a
    millisecond in which it is woken it evaluates [pred()] again, and at
    the deadline it returns [pred()]. *)
Fixpoint wait_until_pred (left : nat) : M bool :=
  match left with
  | O => load_firstData
  | S l =>
      tick;;
      t ← now;
      b ← load_firstData;
      if woken eng t && b then mret true else wait_until_pred l
  end.

Definition waitFirstDataMs (ms : Z) : M bool :=
  b ← load_firstData;
  if b : bool then mret true else wait_until_pred (Z.to_nat ms).

End App.

(** ** main (lines 111-138) *)

Section Main.
Context `{Numeric}.
Variable eng : Engine.

Definition from_engine {A} (r : Exn + A) : M A :=
  match r with
  | inl e => throw e
  | inr a => ret a
  end.

(** [App app(settings)]: the members as their initialisers leave them. *)
Definition new_App : M unit :=
  set_sid SessionID_default;; store_firstData false.

(** The constructor of the initiator creates the sessions; each creation
    calls [onCreate]. *)
Fixpoint created_sessions (sids : list SessionID) : M unit :=
  match sids with
  | [] => mret tt
  | s :: rest => onCreate s;; created_sessions rest
  end.

(** Lines 128-129. *)
Definition logout_first (cx : Ctx) : M unit :=
  match getSessions (settings_ cx) with
  | [] => mret tt
  | s :: _ =>
      if bool_decide (s ∈ registry cx) then act (Logout s "Client exit")
      else mret tt
  end.

(** Lines 127-129. *)
Definition unsubscribe_and_logout (cx : Ctx) : M unit :=
  sendUnsubscribeAll cx;;
  logout_first cx.

(** Lines 127-133: the shutdown after the operator pressed Enter. *)
Definition shutdown (cx : Ctx) : M Z :=
  unsubscribe_and_logout cx;;
  act (Sleep 300);;
  block cx eng 300;;
  act Stop;;
  mret 0.

(** Lines 121-133: the session from [initiator.start()] on.  The worker
    runs while the main thread is blocked: in the wait for first data, in
    [std::cin.get()] and in the sleep. *)
Definition run_session (cx : Ctx) : M Z :=
  match start_result eng with Some e => throw e | None => act Start end;;
  waitFirstDataMs cx eng 60000;;
  print ("Running… press Enter to unsubscribe and logout." +:+ nl);;
  block cx eng (enter_delay eng);;
  shutdown cx.

(** Lines 115-133, the body of the [try]. *)
Definition main_try (arg : string) : M Z :=
  settings ← from_engine (load_settings eng arg);
  new_App;;
  created ← from_engine (create_sessions eng settings);
  created_sessions created;;
  run_session (mkCtx settings created).

(** [argv] is the program name followed by [args]; the result is the exit
    code. *)
Definition main (argv0 : string) (args : list string) : M Z :=
  match args with
  | [] => eprint ("usage: " +:+ argv0 +:+ " client.cfg" +:+ nl);; mret 2
  | arg :: _ =>
      try_catch (main_try arg)
                (fun e => eprint ("fatal: " +:+ what e +:+ nl);; mret 1)
  end.

End Main.

(** ** A sample [Numeric]: plain decimal text

    Prices written as an optional minus sign, digits, and optionally a
    point and more digits, kept exactly as mantissa and scale; they are
    shown with the trailing zeros of the fraction dropped, which is what
    the default stream format does to a [double] of at most six
    significant digits. *)
Module Decimal.

Fixpoint frac_digits (s : string) (m : Z) (sc : nat) : option (Z * nat) :=
  match s with
  | EmptyString => Some (m, sc)
  | String c s' =>
      match digit_of c with
      | Some d => frac_digits s' (10 * m + d) (S sc)
      | None => None
      end
  end.

Fixpoint int_digits (s : string) (m : Z) (seen : bool) : option (Z * nat) :=
  match s with
  | EmptyString => if seen then Some (m, O) else None
  | String c s' =>
      if Ascii.eqb c "."%char then (if seen then frac_digits s' m O else None)
      else match digit_of c with
           | Some d => int_digits s' (10 * m + d) true
           | None => None
           end
  end.

Fixpoint normalise (m : Z) (sc : nat) : Z * nat :=
  match sc with
  | O => (m, O)
  | S sc' => if m mod 10 =? 0 then normalise (m / 10) sc' else (m, sc)
  end.

Definition parse (s : string) : option (bool * (Z * nat)) :=
  match s with
  | String "-"%char s' => (fun v => (true, v)) <$> int_digits s' 0 false
  | _ => (fun v => (false, v)) <$> int_digits s 0 false
  end.

Fixpoint zeros (k : nat) : string :=
  match k with
  | O => ""
  | S k' => "0" +:+ zeros k'
  end.

Definition show (v : bool * (Z * nat)) : string :=
  let '(neg, (m0, sc0)) := v in
  let '(m, sc) := normalise m0 sc0 in
  let p := 10 ^ Z.of_nat sc in
  let frac := pretty (m mod p) in
  (if neg && negb (m =? 0) then "-" else "")
  +:+ pretty (m / p)
  +:+ (match sc with
       | O => ""
       | S _ => "." +:+ zeros (sc - String.length frac) +:+ frac
       end).

#[global] Instance numeric : Numeric :=
  {| double := bool * (Z * nat); stod := parse; show_double := show;
     insertions_before_count := 3 |}.

End Decimal.

(** ** Auxiliary definitions of the proofs *)

(** [cur] glued in front of the first field. *)
Definition glue (cur : string) (fs : list string) : list string :=
  match fs with
  | [] => [cur]
  | f :: rest => (cur +:+ f) :: rest
  end.

(** The [NoRelatedSym] entry of a symbol. *)
Definition symbol_entry (s : string) : Fields := {[ Symbol := s ]}.

(** The request before the symbols are added. *)
Definition subscribe_base : Message :=
  addGroup NoMDEntryTypes {[ MDEntryType := "1"%string ]}
    (addGroup NoMDEntryTypes {[ MDEntryType := "0"%string ]}
       (MarketDataRequest "REQ-1" "1" "1")).

(** The text line 73 prints for entry [i] of [n], of type [e.1] and price
    [e.2]. *)
Definition entry_text `{Numeric} (n i : Z) (e : string * double) : string :=
  side_label (first_char e.1) +:+ "=" +:+ show_double e.2
  +:+ (if i <? n then " | "%string else ""%string).

Fixpoint entries_text `{Numeric} (n i : Z) (es : list (string * double))
  : string :=
  match es with
  | [] => ""
  | e :: es' => entry_text n i e +:+ entries_text n (i + 1) es'
  end.

(** What the loop body reads of an entry: its type (269) and its price
    (270), when both are there and the price is a number. *)
Definition read_entry `{Numeric} (g : Fields) : option (string * double) :=
  match g !! MDEntryType, g !! MDEntryPx with
  | Some ty, Some pxs =>
      match stod pxs with
      | Some px => Some (ty, px)
      | None => None
      end
  | _, _ => None
  end.

(** [m] takes every world to one related to it by [R], however it ends. *)
Definition respects {A} (R : World -> World -> Prop) (m : M A) : Prop :=
  forall w r w', m w = (r, w') -> R w w'.

(** A callback that hands a message of type W to the application. *)
Definition delivers_snapshot (cb : Callback) : bool :=
  match cb with
  | FromApp msg _ => bool_decide (header msg !! MsgType = Some "W"%string)
  | _ => false
  end.

(** Three relations between the world before and after an operation: the
    signal is not cleared, the signal is untouched, no time passes. *)
Definition keeps_flag (w w' : World) : Prop :=
  firstData_ w = true -> firstData_ w' = true.


Definition same_clock (w w' : World) : Prop := clock w' = clock w.

Definition any_action (a : Action) : Prop := True.

(** Actions other than a logout request, and worlds that differ by such
    actions being added. *)
Definition is_logout (a : Action) : bool :=
  match a with
  | Logout _ _ => true
  | _ => false
  end.

Definition no_logout (a : Action) : Prop := is_logout a = false.

Definition extends_quietly (w w' : World) : Prop :=
  exists l, actions w' = actions w ++ l /\ Forall no_logout l.

(** The actions of lines 128-129. *)
Definition logout_actions (cx : Ctx) : list Action :=
  match getSessions (settings_ cx) with
  | [] => []
  | s :: _ =>
      if bool_decide (s ∈ registry cx) then [Logout s "Client exit"] else []
  end.

Definition not_ok {A} (r : Result A) : Prop :=
  match r with
  | Ok _ => False
  | _ => True
  end.

(** The actions [l] of a run of [main] that got its settings and sessions
    and ended with [r]: either the run ended, not normally, before the
    unsubscribe request was sent, and requested no logout; or [l] is the
    unsubscribe request for the session whose settings are [d], then at
    once the logout request when there is one, then the sleep and the stop,
    with no logout request before or after. *)
Definition session_trace (cx : Ctx) (r : Result Z) (l : list Action) : Prop :=
  (Forall no_logout l /\ not_ok r)
  \/ (exists l1 d sid l3 tail,
        settings_lookup (settings_ cx) sid = Some d
        /\ sid ∈ registry cx
        /\ l = l1 ++ SendToTarget (unsubscribe_request d) sid
                  :: logout_actions cx ++ Sleep 300 :: l3 ++ tail
        /\ Forall no_logout l1
        /\ Forall no_logout l3
        /\ ((r = Ok 0 /\ tail = [Stop]) \/ (not_ok r /\ tail = []))).

(** ** Sample data: one session, two symbols, the snapshot of the first
    scenario *)
Module Sample.

Definition sid : SessionID := mkSessionID "FIX.4.4" "CLIENT" "VENUE" "".

Definition dict : Dictionary :=
  {[ "Symbols"%string := "GBPUSD,EURUSD"%string;
     "Username"%string := "alice"%string;
     "Password"%string := "secret"%string ]}.

(** A dictionary without a [Symbols] entry. *)
Definition dict_default : Dictionary :=
  {[ "Username"%string := "alice"%string ]}.

Definition cx : Ctx := mkCtx [(sid, dict)] [sid].
Definition cx_default : Ctx := mkCtx [(sid, dict_default)] [sid].

Definition world : World := mkWorld sid false "" "" [] 0.

Definition snapshot : Message :=
  {| header := {[ BeginString := "FIX.4.4"%string; MsgType := "W"%string ]};
     body := {[ Symbol := "GBPUSD"%string; NoMDEntries := "2"%string ]};
     groups := {[ NoMDEntries :=
                    [ {[ MDEntryType := "0"%string; MDEntryPx := "1.2500"%string ]};
                      {[ MDEntryType := "1"%string; MDEntryPx := "1.2502"%string ]} ] ]} |}.

(** A snapshot whose only entry has no price. *)
Definition snapshot_no_px : Message :=
  {| header := {[ BeginString := "FIX.4.4"%string; MsgType := "W"%string ]};
     body := {[ Symbol := "GBPUSD"%string; NoMDEntries := "1"%string ]};
     groups := {[ NoMDEntries := [ {[ MDEntryType := "0"%string ]} ] ]} |}.


Definition reject : Message :=
  {| header := {[ BeginString := "FIX.4.4"%string; MsgType := "Y"%string ]};
     body := {[ MDReqID := "REQ-1"%string; MDReqRejReason := "0"%string;
                Text := "unknown symbol"%string ]};
     groups := ∅ |}.

Definition logon : Message :=
  {| header := {[ BeginString := "FIX.4.4"%string; MsgType := "A"%string ]};
     body := {[ 98 := "0"%string; 108 := "30"%string ]};
     groups := ∅ |}.

Definition heartbeat : Message :=
  {| header := {[ BeginString := "FIX.4.4"%string; MsgType := "0"%string ]};
     body := ∅;
     groups := ∅ |}.

(** An engine that loads the sample settings, logs on in millisecond 5 and
    delivers the snapshot in millisecond 9; the operator presses Enter
    three milliseconds after the prompt. *)
Definition engine : Engine :=
  {| load_settings := fun _ => inr [(sid, dict)];
     create_sessions := fun _ => inr [sid];
     start_result := None;
     worker := fun t => if Nat.eqb t 5 then [OnLogon sid]
                        else if Nat.eqb t 9 then [FromApp snapshot sid]
                        else [];
     woken := fun _ => true;
     absorbs := fun _ => true;
     enter_delay := 3 |}.

(** An engine on which nothing arrives. *)
Definition quiet_engine : Engine :=
  {| load_settings := fun _ => inr [(sid, dict)];
     create_sessions := fun _ => inr [sid];
     start_result := None;
     worker := fun _ => [];
     woken := fun _ => false;
     absorbs := fun _ => true;
     enter_delay := 3 |}.

(** An engine that cannot read the settings file. *)
Definition broken_engine : Engine :=
  {| load_settings := fun _ => inl (ConfigError "File client.cfg not found");
     create_sessions := fun _ => inr [sid];
     start_result := None;
     worker := fun _ => [];
     woken := fun _ => false;
     absorbs := fun _ => true;
     enter_delay := 3 |}.

End Sample.

(** ** Further auxiliary definitions *)

(** [s] with its commas taken out. *)
Fixpoint without_commas (s : string) : string :=
  match s with
  | EmptyString => EmptyString
  | String c s' =>
      if Ascii.eqb c comma then without_commas s'
      else String c (without_commas s')
  end.

Fixpoint only_commas (s : string) : bool :=
  match s with
  | EmptyString => true
  | String c s' => Ascii.eqb c comma && only_commas s'
  end.

(** The record of an entry without its separator. *)
Definition record_text `{Numeric} (e : string * double) : string :=
  side_label (first_char e.1) +:+ "=" +:+ show_double e.2.


(** More sample snapshots: the two entries of the first scenario under a
    count of one and under a count of three, and an entry whose price is
    no number. *)
Module Sample2.




End Sample2.

(** Further relations between the world before and after an operation. *)
Definition same_cerr (w w' : World) : Prop := cerr w' = cerr w.

Definition same_sid (w w' : World) : Prop := sid_ w' = sid_ w.

Definition is_notify (a : Action) : Prop := a = NotifyAll.

Definition only_notifies (w w' : World) : Prop :=
  exists l, actions w' = actions w ++ l /\ Forall is_notify l.

(** The actions that can precede the shutdown: the start and what the
    callbacks do. *)
Definition before_shutdown (a : Action) : Prop :=
  match a with
  | SendToTarget _ _ | NotifyAll | Start => True
  | _ => False
  end.

Definition extends_before_shutdown (w w' : World) : Prop :=
  exists l, actions w' = actions w ++ l /\ Forall before_shutdown l.

(** [m] keeps [R] on the runs that end by an exception. *)
Definition on_throw {A} (R : World -> World -> Prop) (m : M A) : Prop :=
  forall w e w', m w = (Thrown e, w') -> R w w'.

(** [k] milliseconds pass. *)
Fixpoint later_by (k : nat) (w : World) : World :=
  match k with
  | O => w
  | S k' => later_by k' (later w)
  end.

Definition add_actions (l : list Action) (w : World) : World :=
  fold_left (fun v a => add_action a v) l w.

(** Two sessions with their own symbols and credentials; the initiator
    creates them in this order. *)
Module Sample3.

Definition sid_a : SessionID := mkSessionID "FIX.4.4" "CLIENT" "VENUE-A" "".
Definition sid_b : SessionID := mkSessionID "FIX.4.4" "CLIENT" "VENUE-B" "".

Definition dict_a : Dictionary :=
  {[ "Symbols"%string := "GBPUSD"%string; "Username"%string := "alice"%string ]}.
Definition dict_b : Dictionary :=
  {[ "Symbols"%string := "USDJPY"%string; "Username"%string := "bob"%string ]}.

Definition cx : Ctx := mkCtx [(sid_a, dict_a); (sid_b, dict_b)] [sid_a; sid_b].

(** An engine whose initiator creates no session, and which delivers a
    snapshot all the same in millisecond 2. *)
Definition engine_no_sessions : Engine :=
  {| load_settings := fun _ => inr [(sid_a, dict_a)];
     create_sessions := fun _ => inr [];
     start_result := None;
     worker := fun t => if Nat.eqb t 2 then [FromApp Sample.snapshot sid_a] else [];
     woken := fun _ => true;
     absorbs := fun _ => true;
     enter_delay := 3 |}.

End Sample3.

(** Two sessions, each with its own Username and Password. *)
Module Sample4.

Definition sid_a : SessionID := mkSessionID "FIX.4.4" "CLIENT" "VENUE-A" "".
Definition sid_b : SessionID := mkSessionID "FIX.4.4" "CLIENT" "VENUE-B" "".

Definition dict_a : Dictionary :=
  {[ "Username"%string := "alice"%string; "Password"%string := "secret-a"%string ]}.
Definition dict_b : Dictionary :=
  {[ "Username"%string := "bob"%string; "Password"%string := "secret-b"%string ]}.

Definition cx : Ctx := mkCtx [(sid_a, dict_a); (sid_b, dict_b)] [sid_a; sid_b].

(** The world once the initiator has created both sessions. *)
Definition world : World :=
  (created_sessions [sid_a; sid_b] Sample.world).2.

End Sample4.

(** * Properties *)

(** ** splitCSV against its specification *)

Section SplitCSV.

Lemma append_cons (c : ascii) (s t : string) :
  String c s +:+ t = String c (s +:+ t).
Proof. reflexivity. Qed.

Lemma append_empty_l (s : string) : "" +:+ s = s.
Proof. reflexivity. Qed.

Lemma append_empty_r (s : string) : s +:+ "" = s.
Proof.
  induction s as [|c s IH]; [reflexivity | now rewrite append_cons, IH].
Qed.

Lemma append_assoc (a b c : string) : (a +:+ b) +:+ c = a +:+ (b +:+ c).
Proof.
  induction a as [|x a IH]; [reflexivity | now rewrite !append_cons, IH].
Qed.

Lemma empty_true (s : string) : empty s = true <-> s = ""%string.
Proof. destruct s; simpl; split; intros; congruence. Qed.

Lemma empty_false (s : string) : empty s = false <-> s <> ""%string.
Proof. destruct s; simpl; split; intros; congruence. Qed.

Lemma comma_fields_nonnil (s : string) : comma_fields s <> [].
Proof.
  destruct s as [|c s]; simpl; [discriminate|].
  destruct (Ascii.eqb c comma); [discriminate|].
  destruct (comma_fields s); discriminate.
Qed.

Lemma comma_fields_glue (c : ascii) (s : string) :
  Ascii.eqb c comma = false ->
  comma_fields (String c s) = glue (String c "") (comma_fields s).
Proof.
  intros Hc. simpl. rewrite Hc.
  destruct (comma_fields s) eqn:E; [now apply comma_fields_nonnil in E|].
  reflexivity.
Qed.

Lemma glue_glue (a b : string) (fs : list string) :
  fs <> [] -> glue a (glue b fs) = glue (a +:+ b) fs.
Proof.
  destruct fs as [|f rest]; [congruence|]. intros _. simpl.
  now rewrite append_assoc.
Qed.

Lemma filter_keep_one (cur : string) :
  filter (fun f => empty f = false) [cur] = if empty cur then [] else [cur].
Proof.
  destruct (empty cur) eqn:E.
  - rewrite filter_cons_False by congruence. reflexivity.
  - rewrite filter_cons_True by assumption. reflexivity.
Qed.

(** The loop invariant: what is already in [out], then the non-empty
    fields of the rest with the pending [cur] in front of the first. *)
Lemma splitCSV_loop_fields (s : string) :
  forall out cur,
    splitCSV_finish (splitCSV_loop s out cur)
    = out ++ filter (fun f => empty f = false) (glue cur (comma_fields s)).
Proof.
  induction s as [|c s IH]; intros out cur.
  - cbn [splitCSV_loop splitCSV_finish comma_fields glue].
    rewrite append_empty_r, filter_keep_one.
    destruct (empty cur); [now rewrite app_nil_r | reflexivity].
  - cbn [splitCSV_loop]. destruct (Ascii.eqb c comma) eqn:Hc.
    + rewrite IH. cbn [comma_fields]. rewrite Hc. cbn [glue].
      rewrite append_empty_r.
      destruct (comma_fields s) as [|f rest] eqn:E;
        [now apply comma_fields_nonnil in E|].
      cbn [glue append].
      change (cur :: f :: rest) with ([cur] ++ f :: rest).
      rewrite (filter_app _ [cur]), filter_keep_one.
      destruct (empty cur); [reflexivity | now rewrite <- app_assoc].
    + rewrite IH, (comma_fields_glue _ _ Hc).
      rewrite glue_glue by apply comma_fields_nonnil. reflexivity.
Qed.

Lemma splitCSV_fields (s : string) : splitCSV s = nonempty_fields s.
Proof.
  unfold splitCSV, nonempty_fields. rewrite splitCSV_loop_fields.
  destruct (comma_fields s) as [|f rest] eqn:E;
    [now apply comma_fields_nonnil in E|].
  reflexivity.
Qed.

Lemma concat_cons2 (sep a b : string) (l : list string) :
  String.concat sep (a :: b :: l) = a +:+ sep +:+ String.concat sep (b :: l).
Proof. reflexivity. Qed.

Lemma concat_head (sep : string) (c : ascii) (f : string) (l : list string) :
  String.concat sep (String c f :: l) = String c (String.concat sep (f :: l)).
Proof. destruct l; reflexivity. Qed.

Lemma concat_comma_fields (s : string) :
  String.concat "," (comma_fields s) = s.
Proof.
  induction s as [|c s IH]; [reflexivity|].
  cbn [comma_fields]. destruct (Ascii.eqb c comma) eqn:Hc.
  - apply Ascii.eqb_eq in Hc. subst c.
    destruct (comma_fields s) as [|f rest] eqn:E;
      [now apply comma_fields_nonnil in E|].
    rewrite concat_cons2, IH. reflexivity.
  - destruct (comma_fields s) as [|f rest] eqn:E;
      [now apply comma_fields_nonnil in E|].
    now rewrite concat_head, IH.
Qed.

Lemma comma_fields_comma_free (s : string) :
  Forall (fun f => comma_free f = true) (comma_fields s).
Proof.
  induction s as [|c s IH]; simpl.
  - repeat constructor.
  - destruct (Ascii.eqb c comma) eqn:Hc.
    + constructor; [reflexivity | assumption].
    + destruct (comma_fields s) as [|f rest]; inversion IH; subst;
        constructor; simpl; rewrite ?Hc; auto.
Qed.

Lemma comma_fields_single (f : string) :
  comma_free f = true -> comma_fields f = [f].
Proof.
  induction f as [|c f IH]; simpl; [reflexivity|].
  intros Hf. apply andb_true_iff in Hf as [Hc Hf].
  apply negb_true_iff in Hc. rewrite Hc, (IH Hf). reflexivity.
Qed.

Lemma comma_fields_cut (f rest : string) :
  comma_free f = true ->
  comma_fields (f +:+ String comma rest) = f :: comma_fields rest.
Proof.
  induction f as [|c f IH]; intros Hf.
  - reflexivity.
  - simpl in Hf. apply andb_true_iff in Hf as [Hc Hf].
    apply negb_true_iff in Hc. simpl. rewrite Hc, (IH Hf). reflexivity.
Qed.

(** Any cutting of [s] at commas into comma-free pieces is the one of
    [comma_fields]: the pieces are the maximal comma-free substrings. *)
Lemma comma_fields_unique (l : list string) :
  l <> [] ->
  Forall (fun f => comma_free f = true) l ->
  comma_fields (String.concat "," l) = l.
Proof.
  induction l as [|f l IH]; [congruence|]. intros _ Hl.
  inversion Hl as [|? ? Hf Hrest]; subst.
  destruct l as [|g l].
  - simpl. now apply comma_fields_single.
  - rewrite concat_cons2.
    change ("," +:+ String.concat "," (g :: l))
      with (String comma (String.concat "," (g :: l))).
    rewrite (comma_fields_cut _ _ Hf), IH; [reflexivity | discriminate | assumption].
Qed.

Lemma splitCSV_nonempty (s : string) :
  Forall (fun f => f <> ""%string) (splitCSV s).
Proof.
  rewrite splitCSV_fields. unfold nonempty_fields.
  apply Forall_forall. intros f Hf.
  apply list_elem_of_filter in Hf as [Hf _].
  now apply empty_false.
Qed.

End SplitCSV.

(** ** The two market-data requests *)

Section Requests.

Lemma group_entries_addGroup (tag : Z) (g : Fields) (m : Message) :
  group_entries (addGroup tag g m) tag = group_entries m tag ++ [g].
Proof. unfold group_entries at 1. simpl. now rewrite lookup_insert_eq. Qed.

Lemma group_entries_addGroup_ne (tag tag' : Z) (g : Fields) (m : Message) :
  tag <> tag' ->
  group_entries (addGroup tag g m) tag' = group_entries m tag'.
Proof.
  intros Hne. unfold group_entries. simpl. now rewrite lookup_insert_ne.
Qed.

Lemma body_addGroup_ne (tag tag' : Z) (g : Fields) (m : Message) :
  tag <> tag' -> body (addGroup tag g m) !! tag' = body m !! tag'.
Proof. intros Hne. simpl. now rewrite lookup_insert_ne. Qed.

Lemma header_add_symbols (syms : list string) :
  forall req, header (add_symbols syms req) = header req.
Proof.
  induction syms as [|s syms IH]; intros req; [reflexivity|].
  unfold add_symbols in *. simpl. now rewrite IH.
Qed.

Lemma group_entries_add_symbols (syms : list string) :
  forall req,
    group_entries (add_symbols syms req) NoRelatedSym
    = group_entries req NoRelatedSym ++ map symbol_entry syms.
Proof.
  induction syms as [|s syms IH]; intros req.
  - simpl. now rewrite app_nil_r.
  - unfold add_symbols in *. cbn [fold_left map]. rewrite IH.
    rewrite group_entries_addGroup, <- app_assoc. reflexivity.
Qed.

Lemma group_entries_add_symbols_ne (syms : list string) (tag : Z) :
  tag <> NoRelatedSym ->
  forall req, group_entries (add_symbols syms req) tag = group_entries req tag.
Proof.
  intros Hne. induction syms as [|s syms IH]; intros req; [reflexivity|].
  unfold add_symbols in *. cbn [fold_left]. rewrite IH.
  apply group_entries_addGroup_ne. congruence.
Qed.

Lemma body_add_symbols_ne (syms : list string) (tag : Z) :
  tag <> NoRelatedSym ->
  forall req, body (add_symbols syms req) !! tag = body req !! tag.
Proof.
  intros Hne. induction syms as [|s syms IH]; intros req; [reflexivity|].
  unfold add_symbols in *. cbn [fold_left]. rewrite IH.
  apply body_addGroup_ne. congruence.
Qed.

(** The count field of the symbols group: absent while no symbol has been
    added, and the number of entries afterwards. *)
Lemma body_add_symbols_count (syms : list string) :
  forall req,
    body (add_symbols syms req) !! NoRelatedSym
    = match syms with
      | [] => body req !! NoRelatedSym
      | _ :: _ =>
          Some (pretty (Z.of_nat (length (group_entries req NoRelatedSym)
                                  + length syms)))
      end.
Proof.
  induction syms as [|s syms IH]; intros req; [reflexivity|].
  unfold add_symbols in *. cbn [fold_left]. rewrite IH.
  destruct syms as [|s' syms].
  - simpl. rewrite lookup_insert_eq, length_app. reflexivity.
  - rewrite group_entries_addGroup, length_app. simpl.
    do 3 f_equal. lia.
Qed.

Lemma subscribe_request_unfold (d : Dictionary) :
  subscribe_request d = add_symbols (splitCSV (symbols_raw d)) subscribe_base.
Proof. reflexivity. Qed.

Lemma subscribe_base_other (tag : Z) :
  tag <> MDReqID -> tag <> SubscriptionRequestType -> tag <> MarketDepth ->
  tag <> NoMDEntryTypes ->
  body subscribe_base !! tag = None.
Proof.
  intros H1 H2 H3 H4. unfold subscribe_base, MarketDataRequest. simpl.
  rewrite !lookup_insert_ne by congruence.
  now rewrite lookup_singleton_ne by congruence.
Qed.

Lemma unsubscribe_base_other (tag : Z) :
  tag <> MDReqID -> tag <> SubscriptionRequestType -> tag <> MarketDepth ->
  body (MarketDataRequest "REQ-1" "2" "0") !! tag = None.
Proof.
  intros H1 H2 H3. unfold MarketDataRequest. simpl.
  rewrite !lookup_insert_ne by congruence.
  now rewrite lookup_singleton_ne by congruence.
Qed.

Lemma symbols_of_subscribe (d : Dictionary) :
  group_entries (subscribe_request d) NoRelatedSym
  = map symbol_entry (splitCSV (symbols_raw d)).
Proof. rewrite subscribe_request_unfold, group_entries_add_symbols. reflexivity. Qed.

Lemma symbols_of_unsubscribe (d : Dictionary) :
  group_entries (unsubscribe_request d) NoRelatedSym
  = map symbol_entry (splitCSV (symbols_raw d)).
Proof.
  unfold unsubscribe_request. rewrite group_entries_add_symbols. reflexivity.
Qed.

End Requests.

(** ** Running the callbacks *)

Lemma run_bind {A B} (m : M A) (k : A -> M B) (w : World) :
  (m ≫= k) w
  = match m w with
    | (Ok a, w') => k a w'
    | (Thrown e, w') => (Thrown e, w')
    | (Terminated, w') => (Terminated, w')
    end.
Proof. reflexivity. Qed.

Lemma ret_bind {A B} (a : A) (k : A -> M B) : ret a ≫= k = k a.
Proof. reflexivity. Qed.

Lemma throw_bind {A B} (e : Exn) (k : A -> M B) : throw e ≫= k = throw e.
Proof. reflexivity. Qed.

Lemma sendToTarget_registered (cx : Ctx) (m : Message) (sid : SessionID) (w : World) :
  sid ∈ registry cx ->
  sendToTarget cx m sid w = (Ok tt, add_action (SendToTarget m sid) w).
Proof.
  intros Hin. unfold sendToTarget. now rewrite bool_decide_eq_true_2.
Qed.

Lemma sendSubscribe_run (cx : Ctx) (w : World) (d : Dictionary) :
  settings_lookup (settings_ cx) (sid_ w) = Some d ->
  sid_ w ∈ registry cx ->
  sendSubscribe cx w
  = (Ok tt, add_action (SendToTarget (subscribe_request d) (sid_ w)) w).
Proof.
  intros Hd Hreg. unfold sendSubscribe. rewrite run_bind.
  cbn [get_sid]. rewrite run_bind. unfold settings_get. rewrite Hd.
  cbn [lift ret]. now apply sendToTarget_registered.
Qed.

Lemma sendUnsubscribeAll_run (cx : Ctx) (w : World) (d : Dictionary) :
  settings_lookup (settings_ cx) (sid_ w) = Some d ->
  sid_ w ∈ registry cx ->
  sendUnsubscribeAll cx w
  = (Ok tt, add_action (SendToTarget (unsubscribe_request d) (sid_ w)) w).
Proof.
  intros Hd Hreg. unfold sendUnsubscribeAll. rewrite run_bind.
  cbn [get_sid]. rewrite run_bind. unfold settings_get. rewrite Hd.
  cbn [lift ret]. now apply sendToTarget_registered.
Qed.

(** C1.  A logon event makes the client send exactly one message, the
    MarketDataRequest (35=V) with MDReqID REQ-1, SubscriptionRequestType 1,
    MarketDepth 1, the two NoMDEntryTypes entries 0 then 1, and one
    NoRelatedSym entry per configured symbol in the configured order; the
    request has no other body field and no other group. *)
Theorem onLogon_sends_subscription
  (cx : Ctx) (sid : SessionID) (w : World) (d : Dictionary) :
  settings_lookup (settings_ cx) (sid_ w) = Some d ->
  sid_ w ∈ registry cx ->
  let req := subscribe_request d in
  let syms := splitCSV (symbols_raw d) in
  onLogon cx sid w
  = (Ok tt, add_action (SendToTarget req (sid_ w))
              (add_cout ("Logon: " +:+ SessionID_toString sid +:+ nl) w))
  /\ header req !! MsgType = Some "V"%string
  /\ body req !! MDReqID = Some "REQ-1"%string
  /\ body req !! SubscriptionRequestType = Some "1"%string
  /\ body req !! MarketDepth = Some "1"%string
  /\ body req !! NoMDEntryTypes = Some "2"%string
  /\ group_entries req NoMDEntryTypes
     = [ {[ MDEntryType := "0"%string ]}; {[ MDEntryType := "1"%string ]} ]
  /\ group_entries req NoRelatedSym = map symbol_entry syms
  /\ (syms <> [] ->
      body req !! NoRelatedSym = Some (pretty (Z.of_nat (length syms))))
  /\ (forall tag,
        tag <> MDReqID -> tag <> SubscriptionRequestType ->
        tag <> MarketDepth -> tag <> NoMDEntryTypes -> tag <> NoRelatedSym ->
        body req !! tag = None)
  /\ (forall tag,
        tag <> NoMDEntryTypes -> tag <> NoRelatedSym ->
        group_entries req tag = []).
Proof.
  intros Hd Hreg req syms. subst req syms.
  split.
  { unfold onLogon. rewrite run_bind. cbn [print].
    rewrite (sendSubscribe_run cx _ d) by assumption. reflexivity. }
  rewrite subscribe_request_unfold, header_add_symbols.
  rewrite !body_add_symbols_ne by discriminate.
  rewrite group_entries_add_symbols_ne by discriminate.
  rewrite group_entries_add_symbols, body_add_symbols_count.
  repeat split; try reflexivity.
  - intros Hne. destruct (splitCSV (symbols_raw d)); [congruence | reflexivity].
  - intros tag H1 H2 H3 H4 H5. rewrite body_add_symbols_ne by assumption.
    now apply subscribe_base_other.
  - intros tag H1 H2. rewrite group_entries_add_symbols_ne by assumption.
    unfold subscribe_base. rewrite !group_entries_addGroup_ne by congruence.
    reflexivity.
Qed.

Lemma onLogon_sends_subscription_witness :
  onLogon Sample.cx Sample.sid Sample.world
  = (Ok tt,
     add_action (SendToTarget (subscribe_request Sample.dict) Sample.sid)
       (add_cout ("Logon: " +:+ SessionID_toString Sample.sid +:+ nl) Sample.world))
  /\ group_entries (subscribe_request Sample.dict) NoRelatedSym
     = [ symbol_entry "GBPUSD"; symbol_entry "EURUSD" ]
  /\ body (subscribe_request Sample.dict) !! NoRelatedSym = Some "2"%string.
Proof.
  assert (Hd : settings_lookup (settings_ Sample.cx) (sid_ Sample.world)
               = Some Sample.dict) by reflexivity.
  assert (Hreg : sid_ Sample.world ∈ registry Sample.cx)
    by (simpl; constructor).
  pose proof (onLogon_sends_subscription Sample.cx Sample.sid Sample.world
                Sample.dict Hd Hreg) as (Hrun & _ & _ & _ & _ & _ & _ & Hsyms & Hcount & _).
  split; [exact Hrun|]. split; [exact Hsyms|].
  apply Hcount. discriminate.
Defined.

(** C8.  Without a [Symbols] entry in the session's settings, the subscribe
    and the unsubscribe request each carry exactly one NoRelatedSym entry,
    whose Symbol is GBPUSD. *)
Theorem default_symbol_is_GBPUSD (cx : Ctx) (w : World) (d : Dictionary) :
  settings_lookup (settings_ cx) (sid_ w) = Some d ->
  d !! "Symbols"%string = None ->
  sid_ w ∈ registry cx ->
  let req := subscribe_request d in
  let u := unsubscribe_request d in
  sendSubscribe cx w = (Ok tt, add_action (SendToTarget req (sid_ w)) w)
  /\ sendUnsubscribeAll cx w = (Ok tt, add_action (SendToTarget u (sid_ w)) w)
  /\ group_entries req NoRelatedSym = [ {[ Symbol := "GBPUSD"%string ]} ]
  /\ group_entries u NoRelatedSym = [ {[ Symbol := "GBPUSD"%string ]} ]
  /\ body req !! NoRelatedSym = Some "1"%string
  /\ body u !! NoRelatedSym = Some "1"%string.
Proof.
  intros Hd Hsym Hreg req u. subst req u.
  split; [now apply sendSubscribe_run|].
  split; [now apply sendUnsubscribeAll_run|].
  rewrite symbols_of_subscribe, symbols_of_unsubscribe.
  unfold unsubscribe_request. rewrite subscribe_request_unfold.
  rewrite !body_add_symbols_count.
  unfold symbols_raw. rewrite Hsym.
  repeat split; reflexivity.
Qed.

Lemma default_symbol_is_GBPUSD_witness :
  group_entries (subscribe_request Sample.dict_default) NoRelatedSym
  = [ {[ Symbol := "GBPUSD"%string ]} ]
  /\ group_entries (unsubscribe_request Sample.dict_default) NoRelatedSym
     = [ {[ Symbol := "GBPUSD"%string ]} ].
Proof.
  assert (Hd : settings_lookup (settings_ Sample.cx_default) (sid_ Sample.world)
               = Some Sample.dict_default) by reflexivity.
  assert (Hsym : Sample.dict_default !! "Symbols"%string = None) by reflexivity.
  assert (Hreg : sid_ Sample.world ∈ registry Sample.cx_default)
    by (simpl; constructor).
  pose proof (default_symbol_is_GBPUSD Sample.cx_default Sample.world
                Sample.dict_default Hd Hsym Hreg) as (_ & _ & Hs & Hu & _).
  split; [exact Hs | exact Hu].
Defined.

(** C9.  [splitCSV] returns exactly the non-empty maximal comma-free
    substrings of its input, in order: it equals the non-empty members of
    the cutting of the input at its commas, that cutting rebuilds the input
    and is the only one into comma-free pieces; so no symbol is empty and
    no request carries a NoRelatedSym entry with an empty Symbol. *)
Theorem splitCSV_nonempty_comma_free_substrings (s : string) :
  splitCSV s = nonempty_fields s
  /\ String.concat "," (comma_fields s) = s
  /\ Forall (fun f => comma_free f = true) (comma_fields s)
  /\ (forall l, l <> [] -> Forall (fun f => comma_free f = true) l ->
                String.concat "," l = s -> l = comma_fields s)
  /\ Forall (fun f => f <> ""%string) (splitCSV s)
  /\ (forall d : Dictionary,
        Forall (fun g => exists sym, g = symbol_entry sym /\ sym <> ""%string)
               (group_entries (subscribe_request d) NoRelatedSym)
        /\ Forall (fun g => exists sym, g = symbol_entry sym /\ sym <> ""%string)
                  (group_entries (unsubscribe_request d) NoRelatedSym)).
Proof.
  split; [apply splitCSV_fields|].
  split; [apply concat_comma_fields|].
  split; [apply comma_fields_comma_free|].
  split.
  { intros l Hl Hfree <-. symmetry. now apply comma_fields_unique. }
  split; [apply splitCSV_nonempty|].
  intros d. rewrite symbols_of_subscribe, symbols_of_unsubscribe.
  assert (Forall (fun g => exists sym, g = symbol_entry sym /\ sym <> ""%string)
                 (map symbol_entry (splitCSV (symbols_raw d)))) as Hall.
  { apply Forall_map. eapply Forall_impl; [apply splitCSV_nonempty|].
    intros sym Hsym. now exists sym. }
  split; exact Hall.
Qed.

Lemma splitCSV_nonempty_comma_free_substrings_witness :
  splitCSV ",GBPUSD,,EURUSD," = [ "GBPUSD"; "EURUSD" ]%string
  /\ [ ""; "GBPUSD"; ""; "EURUSD"; "" ]%string = comma_fields ",GBPUSD,,EURUSD,".
Proof.
  pose proof (splitCSV_nonempty_comma_free_substrings ",GBPUSD,,EURUSD,")
    as (Hsplit & _ & _ & Huniq & _).
  split.
  - rewrite Hsplit. reflexivity.
  - apply Huniq; [discriminate | repeat constructor | reflexivity].
Defined.

Lemma reject_run (rej : Message) (w : World) :
  onMessage_MarketDataRequestReject rej w
  = (Ok tt,
     add_cout ("MD Reject (35=Y) MDReqID=" +:+ default ""%string (body rej !! MDReqID)
               +:+ " reason(281)=" +:+ default ""%string (body rej !! MDReqRejReason)
               +:+ " text=" +:+ default ""%string (body rej !! Text) +:+ nl) w).
Proof.
  unfold onMessage_MarketDataRequestReject, isSetField, getField.
  rewrite !run_bind.
  destruct (body rej !! MDReqID) as [id|];
    destruct (body rej !! MDReqRejReason) as [rs|];
    destruct (body rej !! Text) as [tx|]; reflexivity.
Qed.

(** C4.  A MarketDataRequestReject is only reported: the handler prints
    MDReqID (262), MDReqRejReason (281) and Text (58), each empty when
    absent, and does nothing else; it sends nothing and leaves the members
    of the application as they were.  An inbound FIX 4.4 message of type Y
    reaches that handler through [fromApp]. *)
Theorem reject_is_reported_not_retried `{Numeric}
  (rej : Message) (sid : SessionID) (w : World) :
  let w' := add_cout ("MD Reject (35=Y) MDReqID=" +:+ default ""%string (body rej !! MDReqID)
                      +:+ " reason(281)=" +:+ default ""%string (body rej !! MDReqRejReason)
                      +:+ " text=" +:+ default ""%string (body rej !! Text) +:+ nl) w in
  onMessage_MarketDataRequestReject rej w = (Ok tt, w')
  /\ (header rej !! BeginString = Some "FIX.4.4"%string ->
      header rej !! MsgType = Some "Y"%string ->
      fromApp rej sid w = (Ok tt, w'))
  /\ actions w' = actions w
  /\ sid_ w' = sid_ w
  /\ firstData_ w' = firstData_ w
  /\ cerr w' = cerr w.
Proof.
  intros w'. subst w'. split; [apply reject_run|].
  split; [|repeat split].
  intros Hbs Hmt. unfold fromApp, throw_spec, crack, getField.
  rewrite Hbs, Hmt. cbn [lift]. rewrite !ret_bind.
  cbn [String.eqb Ascii.eqb Bool.eqb negb]. rewrite reject_run. reflexivity.
Qed.

Lemma reject_is_reported_not_retried_witness :
  fromApp (H := Decimal.numeric) Sample.reject Sample.sid Sample.world
  = (Ok tt,
     add_cout ("MD Reject (35=Y) MDReqID=REQ-1 reason(281)=0 text=unknown symbol"
               +:+ nl) Sample.world).
Proof.
  pose proof (reject_is_reported_not_retried (H := Decimal.numeric)
                Sample.reject Sample.sid Sample.world) as (_ & Hfrom & _).
  apply Hfrom; reflexivity.
Defined.

(** ** Credentials on Logon *)

Lemma toAdmin_run (cx : Ctx) (msg : Message) (sid : SessionID) (w : World)
  (mt : string) :
  header msg !! MsgType = Some mt ->
  toAdmin cx msg sid w
  = if String.eqb mt MsgType_Logon then
      match settings_lookup (settings_ cx) (sid_ w) with
      | Some d =>
          let m1 := match d !! "Username"%string with
                    | Some u => setField Username u msg
                    | None => msg
                    end in
          (Ok (match d !! "Password"%string with
               | Some p => setField Password p m1
               | None => m1
               end), w)
      | None => (Terminated, w)
      end
    else (Ok msg, w).
Proof.
  intros Hmt. unfold toAdmin, noexcept, getField, settings_get.
  rewrite run_bind, Hmt. cbn [lift ret].
  destruct (String.eqb mt MsgType_Logon); [|reflexivity].
  rewrite !run_bind. cbn [get_sid].
  destruct (settings_lookup (settings_ cx) (sid_ w)); reflexivity.
Qed.

(** C5, as the code has it.  The hook reads the settings of the session
    that [onCreate] recorded in [sid_], not those of the session it is
    called for.  With Username and Password in the settings of that
    recorded session, the hook sets 553 and 554 to exactly those values on
    an outbound Logon of any session and leaves the rest of the message as
    it was; an admin message of any other type is returned unchanged.  The
    hook changes nothing else. *)
Theorem toAdmin_credentials_on_logon_only
  (cx : Ctx) (msg : Message) (sid : SessionID) (w : World)
  (d : Dictionary) (u p mt : string) :
  header msg !! MsgType = Some mt ->
  settings_lookup (settings_ cx) (sid_ w) = Some d ->
  d !! "Username"%string = Some u ->
  d !! "Password"%string = Some p ->
  (mt = MsgType_Logon ->
   exists msg',
     toAdmin cx msg sid w = (Ok msg', w)
     /\ body msg' !! Username = Some u
     /\ body msg' !! Password = Some p
     /\ (forall tag, tag <> Username -> tag <> Password ->
                     body msg' !! tag = body msg !! tag)
     /\ header msg' = header msg
     /\ groups msg' = groups msg)
  /\ (mt <> MsgType_Logon -> toAdmin cx msg sid w = (Ok msg, w)).
Proof.
  intros Hmt Hd Hu Hp. rewrite (toAdmin_run cx msg sid w mt Hmt).
  split.
  - intros ->. cbn [MsgType_Logon String.eqb Ascii.eqb Bool.eqb].
    rewrite Hd, Hu, Hp.
    exists (setField Password p (setField Username u msg)).
    split; [reflexivity|]. cbn [setField body header groups].
    split; [now rewrite lookup_insert_ne, lookup_insert_eq by discriminate|].
    split; [now rewrite lookup_insert_eq|].
    split; [|split; reflexivity].
    intros tag H1 H2. now rewrite !lookup_insert_ne by congruence.
  - intros Hne. apply String.eqb_neq in Hne. now rewrite Hne.
Qed.

Lemma toAdmin_credentials_on_logon_only_witness :
  (exists msg',
     toAdmin Sample.cx Sample.logon Sample.sid Sample.world = (Ok msg', Sample.world)
     /\ body msg' !! Username = Some "alice"%string
     /\ body msg' !! Password = Some "secret"%string)
  /\ toAdmin Sample.cx Sample.heartbeat Sample.sid Sample.world
     = (Ok Sample.heartbeat, Sample.world).
Proof.
  split.
  - destruct (toAdmin_credentials_on_logon_only Sample.cx Sample.logon Sample.sid
                Sample.world Sample.dict "alice" "secret" "A"
                eq_refl eq_refl eq_refl eq_refl) as [Hlogon _].
    destruct (Hlogon eq_refl) as (msg' & Hrun & Hu & Hp & _).
    exists msg'. repeat split; assumption.
  - destruct (toAdmin_credentials_on_logon_only Sample.cx Sample.heartbeat Sample.sid
                Sample.world Sample.dict "alice" "secret" "0"
                eq_refl eq_refl eq_refl eq_refl) as [_ Hother].
    apply Hother. discriminate.
Defined.

(** C5 as stated fails when the settings hold two sessions.  Both have
    been created, so [sid_] is the second; the settings of the first
    define Username alice and Password secret-a, and its Logon leaves with
    the Username and the Password of the second. *)
Lemma logon_carries_last_session_credentials :
  settings_lookup (settings_ Sample4.cx) Sample4.sid_a = Some Sample4.dict_a
  /\ Sample4.dict_a !! "Username"%string = Some "alice"%string
  /\ Sample4.dict_a !! "Password"%string = Some "secret-a"%string
  /\ sid_ Sample4.world = Sample4.sid_b
  /\ toAdmin Sample4.cx Sample.logon Sample4.sid_a Sample4.world
     = (Ok (setField Password "secret-b" (setField Username "bob" Sample.logon)),
        Sample4.world)
  /\ body (setField Password "secret-b" (setField Username "bob" Sample.logon))
       !! Username = Some "bob"%string
  /\ body (setField Password "secret-b" (setField Username "bob" Sample.logon))
       !! Password = Some "secret-b"%string.
Proof. repeat split; reflexivity. Qed.

(** ** The snapshot handler *)

Section Snapshot.
Context `{Numeric}.

Lemma add_cout_app (a b : string) (w : World) :
  add_cout b (add_cout a w) = add_cout (a +:+ b) w.
Proof. unfold add_cout. simpl. now rewrite append_assoc. Qed.

Lemma add_cout_empty (w : World) : add_cout "" w = w.
Proof. destruct w. unfold add_cout. simpl. now rewrite append_empty_r. Qed.

Lemma snapshot_entry_run (snap : Message) (n i : Z) (w : World)
  (g : Fields) (e : string * double) :
  0 < i ->
  group_entries snap NoMDEntries !! Z.to_nat (i - 1) = Some g ->
  read_entry g = Some e ->
  snapshot_entry snap n i w = (Ok tt, add_cout (entry_text n i e) w).
Proof.
  intros Hi Hg He. unfold read_entry in He.
  destruct (g !! MDEntryType) as [ty|] eqn:Hty; [|discriminate].
  destruct (g !! MDEntryPx) as [pxs|] eqn:Hpx; [|discriminate].
  destruct (stod pxs) as [px|] eqn:Hstod; [|discriminate].
  injection He as <-.
  unfold snapshot_entry, getGroup, getField.
  destruct (i <=? 0) eqn:Hle; [apply Z.leb_le in Hle; lia|].
  rewrite Hg. cbn [lift]. rewrite ret_bind, Hty. cbn [lift].
  rewrite ret_bind, Hpx. cbn [lift]. rewrite ret_bind, Hstod. cbn [lift].
  rewrite ret_bind. reflexivity.
Qed.

Lemma snapshot_entries_run (snap : Message) (n : Z) (gs : list Fields)
  (es : list (string * double)) :
  Forall2 (fun g e => read_entry g = Some e) gs es ->
  forall (off : nat) (w : World),
    drop off (group_entries snap NoMDEntries) = gs ->
    snapshot_entries snap n (length es) (Z.of_nat off + 1) w
    = (Ok tt, add_cout (entries_text n (Z.of_nat off + 1) es) w).
Proof.
  induction 1 as [|g e gs es Hge Hrest IH]; intros off w Hdrop.
  - simpl. now rewrite add_cout_empty.
  - cbn [length snapshot_entries entries_text]. rewrite run_bind.
    assert (Hg : group_entries snap NoMDEntries !! off = Some g).
    { rewrite <- (Nat.add_0_r off), <- lookup_drop, Hdrop. reflexivity. }
    rewrite (snapshot_entry_run snap n _ w g e); [|lia| |assumption].
    2:{ replace (Z.to_nat (Z.of_nat off + 1 - 1)) with off by lia. exact Hg. }
    replace (Z.of_nat off + 1 + 1) with (Z.of_nat (S off) + 1) by lia.
    rewrite IH.
    + now rewrite add_cout_app.
    + rewrite (drop_S _ _ _ Hg) in Hdrop. now injection Hdrop.
Qed.

Lemma inserted_take_drop (k : nat) (parts : list string) (t : string) :
  inserted (take k parts) +:+ (inserted (drop k parts) +:+ t)
  = inserted parts +:+ t.
Proof.
  revert k. induction parts as [|p parts IH]; intros [|k]; try reflexivity.
  cbn [take drop inserted]. now rewrite !append_assoc, IH.
Qed.

Lemma head_text (sym t : string) :
  inserted (head_parts sym) +:+ t = "W: " +:+ sym +:+ " entries=" +:+ t.
Proof.
  cbn [inserted head_parts].
  now rewrite append_empty_r, !append_assoc.
Qed.

(** With a count that converts, the head of the line is whole when the
    loop starts, whenever the count was converted. *)
Lemma snapshot_converts (snap : Message) (w : World) (sym cnt : string) (n : Z) :
  body snap !! Symbol = Some sym ->
  body snap !! NoMDEntries = Some cnt ->
  int_convert cnt = Some n ->
  onMessage_MarketDataSnapshotFullRefresh snap w
  = (snapshot_entries snap n (Z.to_nat n) 1;;
     print nl;; store_firstData true;; act NotifyAll)
      (add_cout ("W: " +:+ sym +:+ " entries=" +:+ pretty n +:+ " :: ") w).
Proof.
  intros Hsym Hcnt Hn.
  unfold onMessage_MarketDataSnapshotFullRefresh, getField, getValue.
  rewrite Hsym, Hcnt. cbn [lift]. rewrite !ret_bind, run_bind. cbn [print].
  rewrite Hn. cbn [lift]. rewrite ret_bind, run_bind. cbn [print].
  now rewrite add_cout_app, inserted_take_drop, head_text.
Qed.

(** With a count that does not convert, the handler throws with the
    insertions made before the conversion on the stream. *)
Lemma snapshot_count_refused (snap : Message) (w : World) (sym cnt : string) :
  body snap !! Symbol = Some sym ->
  body snap !! NoMDEntries = Some cnt ->
  int_convert cnt = None ->
  onMessage_MarketDataSnapshotFullRefresh snap w
  = (Thrown (IncorrectDataFormat NoMDEntries),
     add_cout (inserted (take insertions_before_count (head_parts sym))) w).
Proof.
  intros Hsym Hcnt Hn.
  unfold onMessage_MarketDataSnapshotFullRefresh, getField, getValue.
  rewrite Hsym, Hcnt. cbn [lift]. rewrite !ret_bind, run_bind. cbn [print].
  rewrite Hn. reflexivity.
Qed.

Lemma snapshot_run (snap : Message) (w : World) (sym cnt : string)
  (es : list (string * double)) :
  body snap !! Symbol = Some sym ->
  body snap !! NoMDEntries = Some cnt ->
  int_convert cnt = Some (Z.of_nat (length es)) ->
  mapM read_entry (group_entries snap NoMDEntries) = Some es ->
  let n := Z.of_nat (length es) in
  onMessage_MarketDataSnapshotFullRefresh snap w
  = (Ok tt,
     add_action NotifyAll
       (with_firstData true
          (add_cout ("W: " +:+ sym +:+ " entries=" +:+ pretty n +:+ " :: "
                     +:+ entries_text n 1 es +:+ nl) w))).
Proof.
  intros Hsym Hcnt Hn Hes n. subst n.
  apply mapM_Some in Hes.
  rewrite (snapshot_converts snap w sym cnt _ Hsym Hcnt Hn), run_bind.
  rewrite Nat2Z.id.
  rewrite (snapshot_entries_run snap _ _ es Hes 0%nat); [|reflexivity].
  rewrite run_bind. cbn [print]. rewrite run_bind. cbn [store_firstData act].
  rewrite !add_cout_app, !append_assoc. reflexivity.
Qed.

End Snapshot.

(** C2, as the code has it.  For a snapshot that carries Symbol (55), a
    NoMDEntries (268) count equal to its number of entries, and in every
    entry an MDEntryType (269) and an MDEntryPx (270) that is a number, the
    handler prints the symbol, the count and one record per entry in order,
    then sets the first-data signal and notifies the waiters; a FIX 4.4
    message of type W reaches the handler through [fromApp]. *)
Theorem snapshot_reports_entries_and_signals `{Numeric}
  (snap : Message) (sid : SessionID) (w : World) (sym cnt : string)
  (es : list (string * double)) :
  body snap !! Symbol = Some sym ->
  body snap !! NoMDEntries = Some cnt ->
  int_convert cnt = Some (Z.of_nat (length es)) ->
  mapM read_entry (group_entries snap NoMDEntries) = Some es ->
  let n := Z.of_nat (length es) in
  let w' := add_action NotifyAll
              (with_firstData true
                 (add_cout ("W: " +:+ sym +:+ " entries=" +:+ pretty n +:+ " :: "
                            +:+ entries_text n 1 es +:+ nl) w)) in
  onMessage_MarketDataSnapshotFullRefresh snap w = (Ok tt, w')
  /\ firstData_ w' = true
  /\ (header snap !! BeginString = Some "FIX.4.4"%string ->
      header snap !! MsgType = Some "W"%string ->
      fromApp snap sid w = (Ok tt, w')).
Proof.
  intros Hsym Hcnt Hn Hes n w'. subst n w'.
  pose proof (snapshot_run snap w sym cnt es Hsym Hcnt Hn Hes) as Hrun.
  cbv zeta in Hrun. split; [exact Hrun|]. split; [reflexivity|].
  intros Hbs Hmt. unfold fromApp, throw_spec, crack, getField.
  rewrite Hbs, Hmt. cbn [lift]. rewrite !ret_bind.
  cbn [String.eqb Ascii.eqb Bool.eqb negb]. rewrite Hrun. reflexivity.
Qed.

Lemma snapshot_reports_entries_and_signals_witness :
  fromApp (H := Decimal.numeric) Sample.snapshot Sample.sid Sample.world
  = (Ok tt,
     add_action NotifyAll
       (with_firstData true
          (add_cout ("W: GBPUSD entries=2 :: BID=1.25 | ASK=1.2502" +:+ nl)
                    Sample.world))).
Proof.
  pose proof (snapshot_reports_entries_and_signals (H := Decimal.numeric)
                Sample.snapshot Sample.sid Sample.world "GBPUSD" "2"
                [ ("0"%string, (false, (12500, 4%nat)));
                  ("1"%string, (false, (12502, 4%nat))) ]
                eq_refl eq_refl eq_refl eq_refl) as (_ & _ & Hfrom).
  apply Hfrom; reflexivity.
Defined.

(** C2 as stated fails on a snapshot whose entry has no MDEntryPx: the
    handler throws [FieldNotFound] after printing the head of the line,
    and the first-data signal stays unset. *)
Lemma snapshot_without_price_not_signalled :
  fromApp (H := Decimal.numeric) Sample.snapshot_no_px Sample.sid Sample.world
  = (Thrown (FieldNotFound MDEntryPx),
     add_cout "W: GBPUSD entries=1 :: " Sample.world)
  /\ onMessage_MarketDataSnapshotFullRefresh (H := Decimal.numeric)
       Sample.snapshot_no_px Sample.world
     = (Thrown (FieldNotFound MDEntryPx),
        add_cout "W: GBPUSD entries=1 :: " Sample.world)
  /\ firstData_ (add_cout "W: GBPUSD entries=1 :: " Sample.world) = false.
Proof. repeat split; reflexivity. Qed.



(** ** What every operation of the client preserves

    A relation between worlds that is reflexive and transitive and holds
    across each elementary update is kept by every callback, by the
    worker and by the wait.  The hypotheses on the updates are taken one
    by one, so that a relation which one update breaks still goes through
    the operations that do not make that update. *)

Create HintDb frame.

Section Frame.
Context `{Numeric}.
Variable R : World -> World -> Prop.
Variable allowed : Action -> Prop.
Hypothesis R_refl : forall w, R w w.
Hypothesis R_trans : forall a b c, R a b -> R b c -> R a c.
Hypothesis R_cout : forall s w, R w (add_cout s w).
Hypothesis R_action : forall a w, allowed a -> R w (add_action a w).
Hypothesis R_sid : forall sid w, R w (with_sid sid w).
Hypothesis R_set : forall w, R w (with_firstData true w).
Hypothesis R_unset : forall w, R w (with_firstData false w).
Hypothesis R_later : forall w, R w (later w).
Hypothesis allowed_send : forall m sid, allowed (SendToTarget m sid).
Hypothesis allowed_notify : allowed NotifyAll.

Lemma respects_ret {A} (a : A) : respects R (ret a).
Proof. intros w r w' [= <- <-]. apply R_refl. Qed.

Lemma respects_mret {A} (a : A) : respects R (mret a : M A).
Proof. apply respects_ret. Qed.

Lemma respects_throw {A} (e : Exn) : respects R (throw e : M A).
Proof. intros w r w' [= <- <-]. apply R_refl. Qed.

Lemma respects_lift {A} (e : Exn) (o : option A) : respects R (lift e o).
Proof. destruct o; [apply respects_ret | apply respects_throw]. Qed.

Lemma respects_bind {A B} (m : M A) (k : A -> M B) :
  respects R m -> (forall a, respects R (k a)) -> respects R (m ≫= k).
Proof.
  intros Hm Hk w r w' Hrun. rewrite run_bind in Hrun.
  destruct (m w) as [[a|e|] w1] eqn:Hmw.
  - eapply R_trans; [eapply Hm, Hmw | eapply Hk, Hrun].
  - injection Hrun as <- <-. eapply Hm, Hmw.
  - injection Hrun as <- <-. eapply Hm, Hmw.
Qed.

Lemma respects_noexcept {A} (m : M A) : respects R m -> respects R (noexcept m).
Proof.
  intros Hm w r w' Hrun. unfold noexcept in Hrun.
  destruct (m w) as [[a|e|] w1] eqn:Hmw; injection Hrun as <- <-;
    eapply Hm, Hmw.
Qed.

Lemma respects_throw_spec {A} (listed : Exn -> bool) (m : M A) :
  respects R m -> respects R (throw_spec listed m).
Proof.
  intros Hm w r w' Hrun. unfold throw_spec in Hrun.
  destruct (m w) as [[a|e|] w1] eqn:Hmw; [| destruct (listed e) |];
    injection Hrun as <- <-; eapply Hm, Hmw.
Qed.

Lemma respects_try_catch {A} (m : M A) (h : Exn -> M A) :
  respects R m -> (forall e, respects R (h e)) -> respects R (try_catch m h).
Proof.
  intros Hm Hh w r w' Hrun. unfold try_catch in Hrun.
  destruct (m w) as [[a|e|] w1] eqn:Hmw.
  - injection Hrun as <- <-. eapply Hm, Hmw.
  - eapply R_trans; [eapply Hm, Hmw | eapply Hh, Hrun].
  - injection Hrun as <- <-. eapply Hm, Hmw.
Qed.

Lemma respects_print (s : string) : respects R (print s).
Proof. intros w r w' [= <- <-]. apply R_cout. Qed.

Lemma respects_act (a : Action) : allowed a -> respects R (act a).
Proof. intros Ha w r w' [= <- <-]. now apply R_action. Qed.

Lemma respects_set_sid (sid : SessionID) : respects R (set_sid sid).
Proof. intros w r w' [= <- <-]. apply R_sid. Qed.

Lemma respects_store_true : respects R (store_firstData true).
Proof. intros w r w' [= <- <-]. apply R_set. Qed.

Lemma respects_store_false : respects R (store_firstData false).
Proof. intros w r w' [= <- <-]. apply R_unset. Qed.

Lemma respects_advance : respects R advance.
Proof. intros w r w' [= <- <-]. apply R_later. Qed.

Lemma respects_load : respects R load_firstData.
Proof. intros w r w' [= <- <-]. apply R_refl. Qed.

Lemma respects_get_sid : respects R get_sid.
Proof. intros w r w' [= <- <-]. apply R_refl. Qed.

Lemma respects_now : respects R now.
Proof. intros w r w' [= <- <-]. apply R_refl. Qed.

Lemma respects_getField (f : Fields) (tag : Z) : respects R (getField f tag).
Proof. apply respects_lift. Qed.

Lemma respects_getGroup (m : Message) (num tag : Z) :
  respects R (getGroup m num tag).
Proof.
  unfold getGroup. destruct (num <=? 0);
    [apply respects_throw | apply respects_lift].
Qed.

Lemma respects_getValue (tag : Z) (v : string) : respects R (getValue tag v).
Proof. apply respects_lift. Qed.

Lemma respects_settings_get (cx : Ctx) (sid : SessionID) :
  respects R (settings_get cx sid).
Proof. apply respects_lift. Qed.

Lemma respects_sendToTarget (cx : Ctx) (m : Message) (sid : SessionID) :
  respects R (sendToTarget cx m sid).
Proof.
  unfold sendToTarget. destruct (bool_decide (sid ∈ registry cx));
    [apply respects_act, allowed_send | apply respects_throw].
Qed.

#[local] Hint Resolve respects_ret respects_mret respects_throw respects_lift
  respects_print respects_act respects_set_sid respects_store_true
  respects_store_false respects_advance respects_load respects_get_sid
  respects_now respects_getField respects_getGroup respects_getValue
  respects_settings_get respects_sendToTarget respects_noexcept
  respects_throw_spec : frame.

(** One step through a computation: a bind, a branch, or a leaf. *)
Ltac frame_step :=
  match goal with
  | |- respects _ (_ ≫= _) => apply respects_bind; [| intros ?]
  | |- respects _ (if ?b then _ else _) => destruct b
  | |- respects _ (match ?x with _ => _ end) => destruct x
  | |- respects _ _ => solve [eauto with frame]
  end.

Ltac frame := repeat frame_step.

Variable cx : Ctx.

Lemma respects_sendSubscribe : respects R (sendSubscribe cx).
Proof. unfold sendSubscribe. frame. Qed.

Lemma respects_sendUnsubscribeAll : respects R (sendUnsubscribeAll cx).
Proof. unfold sendUnsubscribeAll. frame. Qed.

Lemma respects_onCreate (sid : SessionID) : respects R (onCreate sid).
Proof. unfold onCreate. frame. Qed.

Lemma respects_onLogon (sid : SessionID) : respects R (onLogon cx sid).
Proof. unfold onLogon. frame. apply respects_sendSubscribe. Qed.

Lemma respects_onLogout (sid : SessionID) : respects R (onLogout sid).
Proof. unfold onLogout. frame. Qed.

Lemma respects_toAdmin (msg : Message) (sid : SessionID) :
  respects R (toAdmin cx msg sid).
Proof. unfold toAdmin. apply respects_noexcept. frame. Qed.

Lemma respects_reject (rej : Message) :
  respects R (onMessage_MarketDataRequestReject rej).
Proof. unfold onMessage_MarketDataRequestReject. frame. Qed.

Lemma respects_snapshot_entry (snap : Message) (n i : Z) :
  respects R (snapshot_entry snap n i).
Proof. unfold snapshot_entry. frame. Qed.

Lemma respects_snapshot_entries (snap : Message) (n : Z) (k : nat) :
  forall i, respects R (snapshot_entries snap n k i).
Proof.
  induction k as [|k IH]; intros i; cbn [snapshot_entries].
  - frame.
  - apply respects_bind; [apply respects_snapshot_entry | intros _; apply IH].
Qed.

Lemma respects_snapshot (snap : Message) :
  respects R (onMessage_MarketDataSnapshotFullRefresh snap).
Proof.
  unfold onMessage_MarketDataSnapshotFullRefresh.
  do 5 frame_step; try solve [frame].
  apply respects_bind; [apply respects_snapshot_entries | intros _]. frame.
Qed.

Lemma respects_crack_other (msg : Message) (sid : SessionID) :
  header msg !! MsgType <> Some "W"%string ->
  respects R (crack msg sid).
Proof.
  intros Hmt. unfold crack, getField.
  destruct (header msg !! BeginString) as [bs|]; cbn [lift];
    [|rewrite throw_bind; frame].
  rewrite ret_bind.
  destruct (header msg !! MsgType) as [mt|]; cbn [lift];
    [|rewrite throw_bind; frame].
  rewrite ret_bind.
  destruct (negb (String.eqb bs "FIX.4.4")); [frame|].
  destruct (String.eqb mt "Y"); [apply respects_reject|].
  destruct (String.eqb mt "W") eqn:Hw; [|frame].
  apply String.eqb_eq in Hw. congruence.
Qed.

Lemma respects_crack (msg : Message) (sid : SessionID) :
  respects R (crack msg sid).
Proof.
  unfold crack. do 3 frame_step; try solve [frame].
  frame_step; [apply respects_reject|].
  frame_step; [apply respects_snapshot | frame].
Qed.

Lemma respects_run_callback (cb : Callback) : respects R (run_callback cx cb).
Proof.
  destruct cb; cbn [run_callback].
  - apply respects_onCreate.
  - apply respects_onLogon.
  - apply respects_onLogout.
  - apply respects_bind; [apply respects_toAdmin | intros _; frame].
  - unfold fromAdmin. frame.
  - unfold toApp. frame.
  - unfold fromApp. apply respects_throw_spec, respects_crack.
Qed.


Variable eng : Engine.

Lemma respects_absorbed (m : M unit) : respects R m -> respects R (absorbed eng m).
Proof.
  intros Hm w r w' Hrun. unfold absorbed in Hrun.
  destruct (m w) as [[a|e|] w1] eqn:Hmw; [| destruct (absorbs eng e) |];
    injection Hrun as <- <-; eapply Hm, Hmw.
Qed.

Lemma respects_run_callbacks (cbs : list Callback) :
  respects R (run_callbacks cx eng cbs).
Proof.
  induction cbs as [|cb cbs IH]; cbn [run_callbacks]; [frame|].
  apply respects_bind; [|intros _; exact IH].
  apply respects_absorbed, respects_run_callback.
Qed.


Lemma respects_tick : respects R (tick cx eng).
Proof. unfold tick. frame. apply respects_run_callbacks. Qed.

Lemma respects_block (k : nat) : respects R (block cx eng k).
Proof.
  induction k as [|k IH]; cbn [block]; [frame|].
  apply respects_bind; [apply respects_tick | intros _; exact IH].
Qed.

Lemma respects_wait_until_pred (left : nat) :
  respects R (wait_until_pred cx eng left).
Proof.
  induction left as [|l IH]; cbn [wait_until_pred]; [frame|].
  apply respects_bind; [apply respects_tick | intros _]. frame.
Qed.

Lemma respects_waitFirstDataMs (ms : Z) : respects R (waitFirstDataMs cx eng ms).
Proof.
  unfold waitFirstDataMs. frame_step; [frame|].
  destruct a; [frame | apply respects_wait_until_pred].
Qed.

Lemma respects_from_engine {A} (r : Exn + A) : respects R (from_engine r).
Proof. destruct r; cbn [from_engine]; frame. Qed.

Lemma respects_new_App : respects R new_App.
Proof. unfold new_App. frame. Qed.

Lemma respects_created_sessions (sids : list SessionID) :
  respects R (created_sessions sids).
Proof.
  induction sids as [|s sids IH]; cbn [created_sessions]; [frame|].
  apply respects_bind; [apply respects_onCreate | intros _; exact IH].
Qed.

End Frame.

(** ** The first-data signal *)

Section FirstData.
Context `{Numeric}.
Variable cx : Ctx.
Variable eng : Engine.


Lemma keeps_flag_callbacks (cbs : list Callback) :
  respects keeps_flag (run_callbacks cx eng cbs).
Proof.
  apply (respects_run_callbacks keeps_flag any_action); unfold keeps_flag;
    try (intros; simpl; tauto); eauto; constructor.
Qed.







Lemma same_clock_callbacks (cbs : list Callback) :
  respects same_clock (run_callbacks cx eng cbs).
Proof.
  apply (respects_run_callbacks same_clock any_action); unfold same_clock;
    try (intros; simpl; congruence); constructor.
Qed.

Lemma tick_run (w : World) :
  tick cx eng w = run_callbacks cx eng (worker eng (S (clock w))) (later w).
Proof. reflexivity. Qed.

Lemma tick_clock (w : World) (r : Result unit) (w1 : World) :
  tick cx eng w = (r, w1) -> clock w1 = S (clock w).
Proof. rewrite tick_run. intros Hrun. now apply same_clock_callbacks in Hrun. Qed.






End FirstData.



(** ** main *)

Section MainRun.
Context `{Numeric}.
Variable eng : Engine.

Lemma extends_quietly_refl (w : World) : extends_quietly w w.
Proof. exists []. split; [now rewrite app_nil_r | constructor]. Qed.

Lemma extends_quietly_trans (a b c : World) :
  extends_quietly a b -> extends_quietly b c -> extends_quietly a c.
Proof.
  intros (l1 & E1 & Q1) (l2 & E2 & Q2). exists (l1 ++ l2). split.
  - now rewrite E2, E1, app_assoc.
  - now apply Forall_app.
Qed.

Lemma extends_quietly_action (a : Action) (w : World) :
  no_logout a -> extends_quietly w (add_action a w).
Proof. intros Ha. exists [a]. split; [reflexivity | now repeat constructor]. Qed.

(** The hypotheses of the frame lemmas, for [extends_quietly]. *)
Ltac quietly lem :=
  eapply lem;
  first [ exact extends_quietly_refl
        | exact extends_quietly_trans
        | exact extends_quietly_action
        | intros; exact (extends_quietly_refl _)
        | intros; reflexivity ].

Lemma quiet_wait (cx : Ctx) (ms : Z) :
  respects extends_quietly (waitFirstDataMs cx eng ms).
Proof. quietly respects_waitFirstDataMs. Qed.

Lemma quiet_block (cx : Ctx) (k : nat) :
  respects extends_quietly (block cx eng k).
Proof. quietly respects_block. Qed.

Lemma quiet_new_App : respects extends_quietly new_App.
Proof. quietly respects_new_App. Qed.

Lemma quiet_created_sessions (sids : list SessionID) :
  respects extends_quietly (created_sessions sids).
Proof. quietly respects_created_sessions. Qed.

Lemma quiet_start :
  respects extends_quietly
    (match start_result eng with Some e => throw e | None => act Start end).
Proof.
  destruct (start_result eng); intros w r w' [= <- <-];
    [apply extends_quietly_refl | now apply extends_quietly_action].
Qed.

Lemma quiet_print (s : string) : respects extends_quietly (print s).
Proof.
  intros w r w' [= <- <-]. exists [].
  split; [simpl; now rewrite app_nil_r | constructor].
Qed.

Lemma logout_first_run (cx : Ctx) (w : World) :
  exists w1, logout_first cx w = (Ok tt, w1)
             /\ actions w1 = actions w ++ logout_actions cx.
Proof.
  unfold logout_first, logout_actions.
  destruct (getSessions (settings_ cx)) as [|s ss].
  - exists w. split; [reflexivity | now rewrite app_nil_r].
  - destruct (bool_decide (s ∈ registry cx)).
    + eexists. split; reflexivity.
    + exists w. split; [reflexivity | now rewrite app_nil_r].
Qed.

Lemma sendUnsubscribeAll_cases (cx : Ctx) (w : World) :
  (exists d, settings_lookup (settings_ cx) (sid_ w) = Some d
             /\ sid_ w ∈ registry cx
             /\ sendUnsubscribeAll cx w
                = (Ok tt, add_action (SendToTarget (unsubscribe_request d) (sid_ w)) w))
  \/ (exists e, sendUnsubscribeAll cx w = (Thrown e, w)).
Proof.
  destruct (settings_lookup (settings_ cx) (sid_ w)) as [d|] eqn:Hd.
  - destruct (decide (sid_ w ∈ registry cx)) as [Hreg|Hreg].
    + left. exists d. repeat split; try assumption.
      now apply sendUnsubscribeAll_run.
    + right. exists SessionNotFound.
      unfold sendUnsubscribeAll. rewrite run_bind. cbn [get_sid].
      rewrite run_bind. unfold settings_get. rewrite Hd. cbn [lift ret].
      unfold sendToTarget. now rewrite bool_decide_eq_false_2.
  - right. exists (ConfigError "Session not found").
    unfold sendUnsubscribeAll. rewrite run_bind. cbn [get_sid].
    rewrite run_bind. unfold settings_get. now rewrite Hd.
Qed.

Lemma session_trace_prefix (cx : Ctx) (r : Result Z) (l0 l : list Action) :
  Forall no_logout l0 -> session_trace cx r l -> session_trace cx r (l0 ++ l).
Proof.
  intros Q0 [[Q Hr]|(l1 & d & sid & l3 & tail & Hd & Hreg & -> & Q1 & Q3 & Hend)].
  - left. split; [now apply Forall_app | assumption].
  - right. exists (l0 ++ l1), d, sid, l3, tail.
    split; [exact Hd|]. split; [exact Hreg|].
    split; [now rewrite <- app_assoc|].
    split; [now apply Forall_app|]. split; assumption.
Qed.

Lemma after_quiet {A} (cx : Ctx) (m : M A) (k : A -> M Z) :
  respects extends_quietly m ->
  (forall a w1 r w',
      k a w1 = (r, w') ->
      exists l, actions w' = actions w1 ++ l /\ session_trace cx r l) ->
  forall w r w',
    (m ≫= k) w = (r, w') ->
    exists l, actions w' = actions w ++ l /\ session_trace cx r l.
Proof.
  intros Hm Hk w r w' Hrun. rewrite run_bind in Hrun.
  destruct (m w) as [[a|e|] w1] eqn:Hmw; apply Hm in Hmw as (l0 & E0 & Q0).
  - apply Hk in Hrun as (l & E & T). exists (l0 ++ l). split.
    + now rewrite E, E0, app_assoc.
    + now apply session_trace_prefix.
  - injection Hrun as <- <-. exists l0. split; [assumption|].
    left. split; [assumption | exact I].
  - injection Hrun as <- <-. exists l0. split; [assumption|].
    left. split; [assumption | exact I].
Qed.

Lemma shutdown_trace (cx : Ctx) (w : World) (r : Result Z) (w' : World) :
  shutdown eng cx w = (r, w') ->
  exists l, actions w' = actions w ++ l /\ session_trace cx r l.
Proof.
  unfold shutdown, unsubscribe_and_logout. rewrite !run_bind.
  destruct (sendUnsubscribeAll_cases cx w) as [(d & Hd & Hreg & ->)|(e & ->)].
  2:{ intros [= <- <-]. exists []. split; [now rewrite app_nil_r|].
      left. split; [constructor | exact I]. }
  destruct (logout_first_run cx (add_action (SendToTarget (unsubscribe_request d) (sid_ w)) w))
    as (w2 & -> & E2).
  rewrite run_bind. cbn [act]. rewrite run_bind.
  destruct (block cx eng 300 (add_action (Sleep 300) w2)) as [[[]|e|] w3] eqn:Hb;
    apply quiet_block in Hb as (l3 & E3 & Q3); simpl in E3; rewrite E2 in E3;
    simpl in E3.
  - rewrite run_bind. cbn [act]. intros [= <- <-].
    exists (SendToTarget (unsubscribe_request d) (sid_ w)
              :: logout_actions cx ++ Sleep 300 :: l3 ++ [Stop]).
    split.
    + simpl. rewrite E3, <- !app_assoc. reflexivity.
    + right. exists [], d, (sid_ w), l3, [Stop].
      split; [exact Hd|]. split; [exact Hreg|]. split; [reflexivity|].
      split; [constructor|]. split; [exact Q3|]. left. split; reflexivity.
  - intros [= <- <-].
    exists (SendToTarget (unsubscribe_request d) (sid_ w)
              :: logout_actions cx ++ Sleep 300 :: l3 ++ []).
    split.
    + rewrite E3, app_nil_r, <- !app_assoc. reflexivity.
    + right. exists [], d, (sid_ w), l3, [].
      split; [exact Hd|]. split; [exact Hreg|]. split; [reflexivity|].
      split; [constructor|]. split; [exact Q3|]. right. split; [exact I | reflexivity].
  - intros [= <- <-].
    exists (SendToTarget (unsubscribe_request d) (sid_ w)
              :: logout_actions cx ++ Sleep 300 :: l3 ++ []).
    split.
    + rewrite E3, app_nil_r, <- !app_assoc. reflexivity.
    + right. exists [], d, (sid_ w), l3, [].
      split; [exact Hd|]. split; [exact Hreg|]. split; [reflexivity|].
      split; [constructor|]. split; [exact Q3|]. right. split; [exact I | reflexivity].
Qed.

Lemma run_session_trace (cx : Ctx) (w : World) (r : Result Z) (w' : World) :
  run_session eng cx w = (r, w') ->
  exists l, actions w' = actions w ++ l /\ session_trace cx r l.
Proof.
  unfold run_session.
  apply after_quiet; [apply quiet_start | intros _].
  apply after_quiet; [apply quiet_wait | intros _].
  apply after_quiet; [apply quiet_print | intros _].
  apply after_quiet; [apply quiet_block | intros _].
  apply shutdown_trace.
Qed.

(** A run of the body of the [try]: it ends before the session starts,
    not normally and with no logout request, or it is a session run. *)
Lemma main_try_trace (arg : string) (w : World) (r : Result Z) (w' : World) :
  main_try eng arg w = (r, w') ->
  exists l,
    actions w' = actions w ++ l
    /\ ((Forall no_logout l /\ not_ok r)
        \/ (exists settings created,
              load_settings eng arg = inr settings
              /\ create_sessions eng settings = inr created
              /\ session_trace (mkCtx settings created) r l)).
Proof.
  unfold main_try.
  destruct (load_settings eng arg) as [e|settings] eqn:Hload; cbn [from_engine].
  { rewrite throw_bind. intros [= <- <-]. exists [].
    split; [now rewrite app_nil_r|]. left. split; [constructor | exact I]. }
  rewrite ret_bind, run_bind.
  change (new_App w) with (Ok tt, with_firstData false (with_sid SessionID_default w)).
  cbv iota beta.
  destruct (create_sessions eng settings) as [e|created] eqn:Hcreate;
    cbn [from_engine].
  { rewrite throw_bind. intros [= <- <-]. exists [].
    split; [simpl; now rewrite app_nil_r|]. left. split; [constructor | exact I]. }
  rewrite ret_bind. intros Hrun.
  apply (after_quiet (mkCtx settings created)) in Hrun as (l & E & T).
  - exists l. split; [exact E|]. right. now exists settings, created.
  - apply quiet_created_sessions.
  - intros _ w1 r1 w1'. apply run_session_trace.
Qed.

End MainRun.

Lemma main_with_argument `{Numeric} (eng : Engine) (argv0 arg : string)
  (rest : list string) (w : World) :
  main eng argv0 (arg :: rest) w
  = match main_try eng arg w with
    | (Thrown e, w1) => (Ok 1, add_cerr ("fatal: " +:+ what e +:+ nl) w1)
    | other => other
    end.
Proof.
  cbn [main]. unfold try_catch.
  destruct (main_try eng arg w) as [[c|e|] w1]; reflexivity.
Qed.

Lemma unsubscribe_request_fields (d : Dictionary) :
  header (unsubscribe_request d) !! MsgType = Some "V"%string
  /\ body (unsubscribe_request d) !! SubscriptionRequestType = Some "2"%string
  /\ body (unsubscribe_request d) !! MDReqID = Some "REQ-1"%string
  /\ body (subscribe_request d) !! MDReqID = Some "REQ-1"%string
  /\ group_entries (unsubscribe_request d) NoRelatedSym
     = group_entries (subscribe_request d) NoRelatedSym.
Proof.
  rewrite symbols_of_subscribe, symbols_of_unsubscribe.
  rewrite subscribe_request_unfold. unfold unsubscribe_request.
  rewrite header_add_symbols, !body_add_symbols_ne by discriminate.
  repeat split; reflexivity.
Qed.

(** C3.  In every run of [main], a logout request is made only right after
    the unsubscribe request: the actions of the run are either free of
    logout requests (and the run did not end with exit code 0), or they
    are a logout-free part, the MarketDataRequest with 263=2 for a
    configured, registered session, at once the logout request of lines
    128-129 when there is one, the sleep, a logout-free part and, when the
    run ends with exit code 0, the stop.  The unsubscribe request carries
    MDReqID REQ-1 and the NoRelatedSym entries of the subscription request
    built from the same settings. *)
Theorem unsubscribe_then_logout `{Numeric} (eng : Engine) (argv0 : string)
  (args : list string) (w : World) (r : Result Z) (w' : World) :
  main eng argv0 args w = (r, w') ->
  exists l,
    actions w' = actions w ++ l
    /\ ((Forall no_logout l /\ r <> Ok 0)
        \/ (exists arg rest settings created l1 d sid l3 tail,
              args = arg :: rest
              /\ load_settings eng arg = inr settings
              /\ create_sessions eng settings = inr created
              /\ settings_lookup settings sid = Some d
              /\ sid ∈ created
              /\ l = l1 ++ SendToTarget (unsubscribe_request d) sid
                        :: logout_actions (mkCtx settings created)
                        ++ Sleep 300 :: l3 ++ tail
              /\ Forall no_logout l1
              /\ Forall no_logout l3
              /\ ((r = Ok 0 /\ tail = [Stop]) \/ (r <> Ok 0 /\ tail = []))
              /\ header (unsubscribe_request d) !! MsgType = Some "V"%string
              /\ body (unsubscribe_request d) !! SubscriptionRequestType
                 = Some "2"%string
              /\ body (unsubscribe_request d) !! MDReqID = Some "REQ-1"%string
              /\ body (subscribe_request d) !! MDReqID = Some "REQ-1"%string
              /\ group_entries (unsubscribe_request d) NoRelatedSym
                 = group_entries (subscribe_request d) NoRelatedSym)).
Proof.
  destruct args as [|arg rest].
  { intros [= <- <-]. exists []. split; [simpl; now rewrite app_nil_r|].
    left. split; [constructor | discriminate]. }
  rewrite main_with_argument.
  destruct (main_try eng arg w) as [r0 w0] eqn:Htry.
  apply main_try_trace in Htry
    as (l & E & [[Q Hr]|(settings & created & Hload & Hcreate & T)]).
  { intros Hrun. exists l.
    destruct r0 as [c|e|]; [destruct Hr | |]; injection Hrun as <- <-;
      (split; [exact E|]); left; (split; [exact Q | discriminate]). }
  destruct T as [[Q Hr]|(l1 & d & sid & l3 & tail & Hd & Hreg & Hl & Q1 & Q3 & Hend)].
  { intros Hrun. exists l.
    destruct r0 as [c|e|]; [destruct Hr | |]; injection Hrun as <- <-;
      (split; [exact E|]); left; (split; [exact Q | discriminate]). }
  intros Hrun. exists l.
  assert (actions w' = actions w ++ l
          /\ ((r = Ok 0 /\ tail = [Stop]) \/ (r <> Ok 0 /\ tail = [])))
    as [E' Hend'].
  { destruct Hend as [[-> ->]|[Hr ->]].
    - injection Hrun as <- <-. split; [exact E|]. left. split; reflexivity.
    - destruct r0 as [c|e|]; [destruct Hr | |]; injection Hrun as <- <-;
        (split; [exact E|]); right; (split; [discriminate | reflexivity]). }
  split; [exact E'|]. right.
  exists arg, rest, settings, created, l1, d, sid, l3, tail.
  pose proof (unsubscribe_request_fields d) as (F1 & F2 & F3 & F4 & F5).
  repeat (split; [assumption || reflexivity|]). exact F5.
Qed.

Lemma unsubscribe_then_logout_witness :
  exists l1 l3,
    actions (main (H := Decimal.numeric) Sample.engine "client" ["client.cfg"%string]
               Sample.world).2
    = l1 ++ SendToTarget (unsubscribe_request Sample.dict) Sample.sid
         :: Logout Sample.sid "Client exit" :: Sleep 300 :: l3 ++ [Stop]
    /\ Forall no_logout l1 /\ Forall no_logout l3.
Proof.
  destruct (unsubscribe_then_logout (H := Decimal.numeric) Sample.engine "client"
              ["client.cfg"%string] Sample.world (Ok 0)
              (main (H := Decimal.numeric) Sample.engine "client"
                 ["client.cfg"%string] Sample.world).2)
    as (l & E & Hl).
  { vm_compute. reflexivity. }
  destruct Hl as [[_ Hr]|(arg & rest & settings & created & l1 & d & sid & l3 & tail
                          & _ & Hload & Hcreate & Hd & Hreg & Hl & Q1 & Q3 & Hend & _)].
  { now destruct Hr. }
  destruct Hend as [[_ ->]|[Hr _]]; [|now destruct Hr].
  injection Hload as <-. injection Hcreate as <-.
  apply list_elem_of_singleton in Hreg. subst sid.
  injection Hd as <-.
  exists l1, l3. rewrite E, Hl. repeat split; assumption.
Defined.

(** C7.  The exit code of [main] is 2 exactly when no argument was given,
    with the usage line on the error stream; it is 1 exactly when an
    exception left the body of the [try], with the line fatal: and the
    text of the exception added to the error stream, as when the settings
    cannot be read; it is 0 exactly when that body ran to its end, which
    is the stop of the initiator.  [main] returns no other code and lets
    no exception out. *)
Theorem exit_codes `{Numeric} (eng : Engine) (argv0 : string)
  (args : list string) (w : World) (r : Result Z) (w' : World) :
  main eng argv0 args w = (r, w') ->
  (args = [] <-> r = Ok 2)
  /\ (args = [] ->
      w' = add_cerr ("usage: " +:+ argv0 +:+ " client.cfg" +:+ nl) w)
  /\ (r = Ok 1 <->
      exists arg rest e w1,
        args = arg :: rest /\ main_try eng arg w = (Thrown e, w1))
  /\ (forall arg rest e w1,
        args = arg :: rest -> main_try eng arg w = (Thrown e, w1) ->
        w' = add_cerr ("fatal: " +:+ what e +:+ nl) w1)
  /\ (forall arg rest e,
        args = arg :: rest -> load_settings eng arg = inl e ->
        r = Ok 1 /\ w' = add_cerr ("fatal: " +:+ what e +:+ nl) w)
  /\ (r = Ok 0 <->
      exists arg rest, args = arg :: rest /\ main_try eng arg w = (Ok 0, w'))
  /\ (r = Ok 0 -> exists acts, actions w' = acts ++ [Stop])
  /\ (forall c, r = Ok c -> c = 0 \/ c = 1 \/ c = 2)
  /\ (forall e, r <> Thrown e).
Proof.
  destruct args as [|arg rest].
  { intros [= <- <-].
    split; [split; reflexivity|]. split; [reflexivity|].
    split; [split; [discriminate | intros (? & ? & ? & ? & ? & _); discriminate]|].
    split; [discriminate|]. split; [discriminate|].
    split; [split; [discriminate | intros (? & ? & ? & _); discriminate]|].
    split; [discriminate|].
    split; [intros c [= <-]; auto | discriminate]. }
  rewrite main_with_argument.
  destruct (main_try eng arg w) as [r0 w0] eqn:Htry.
  assert (Hok : forall c, r0 = Ok c -> c = 0 /\ exists acts, actions w0 = acts ++ [Stop]).
  { intros c ->.
    apply main_try_trace in Htry
      as (l & E & [[_ []]|(settings & created & _ & _ & T)]).
    destruct T as [[_ []]|(l1 & d & sid & l3 & tail & _ & _ & Hl & _ & _ & Hend)].
    destruct Hend as [[[= ->] ->]|[[] _]].
    split; [reflexivity|].
    exists (actions w ++ l1 ++ SendToTarget (unsubscribe_request d) sid
              :: logout_actions (mkCtx settings created) ++ Sleep 300 :: l3).
    rewrite E, Hl, <- !app_assoc. cbn [app]. now rewrite <- !app_assoc. }
  intros Hrun.
  destruct r0 as [c|e|].
  - destruct (Hok c eq_refl) as [-> Hstop]. injection Hrun as <- <-.
    split; [split; discriminate|]. split; [discriminate|].
    split; [split; [discriminate | intros (? & ? & ? & ? & [= <- <-] & Htry'); congruence]|].
    split; [intros ? ? ? ? [= <- <-] Htry'; congruence|].
    split.
    { intros a rs e [= <- <-] Hload. unfold main_try in Htry.
      rewrite Hload in Htry. cbn [from_engine] in Htry.
      rewrite throw_bind in Htry. discriminate. }
    split; [split; [intros _; now exists arg, rest | reflexivity]|].
    split; [intros _; exact Hstop|].
    split; [intros c [= <-]; auto | discriminate].
  - injection Hrun as <- <-.
    split; [split; discriminate|]. split; [discriminate|].
    split; [split; [intros _; now exists arg, rest, e, w0 | reflexivity]|].
    split.
    { intros a rs e' w1 [= <- <-] Htry'. rewrite Htry in Htry'.
      now injection Htry' as <- <-. }
    split.
    { intros a rs e' [= <- <-] Hload. unfold main_try in Htry.
      rewrite Hload in Htry. cbn [from_engine] in Htry.
      rewrite throw_bind in Htry. injection Htry as <- <-. split; reflexivity. }
    split; [split; [discriminate | intros (? & ? & [= <- <-] & Htry'); congruence]|].
    split; [discriminate|].
    split; [intros c [= <-]; auto | discriminate].
  - injection Hrun as <- <-.
    split; [split; discriminate|]. split; [discriminate|].
    split; [split; [discriminate | intros (? & ? & ? & ? & [= <- <-] & Htry'); congruence]|].
    split; [intros ? ? ? ? [= <- <-] Htry'; congruence|].
    split.
    { intros a rs e [= <- <-] Hload. unfold main_try in Htry.
      rewrite Hload in Htry. cbn [from_engine] in Htry.
      rewrite throw_bind in Htry. discriminate. }
    split; [split; [discriminate | intros (? & ? & [= <- <-] & Htry'); congruence]|].
    split; [discriminate|].
    split; [discriminate | discriminate].
Qed.

Lemma exit_codes_witness :
  (exists acts,
      actions (main (H := Decimal.numeric) Sample.engine "client"
                 ["client.cfg"%string] Sample.world).2
      = acts ++ [Stop])
  /\ (main (H := Decimal.numeric) Sample.broken_engine "client"
        ["client.cfg"%string] Sample.world).2
     = add_cerr ("fatal: " +:+ what (ConfigError "File client.cfg not found") +:+ nl)
                Sample.world
  /\ (main (H := Decimal.numeric) Sample.engine "client" [] Sample.world).1
     = Ok 2.
Proof.
  split; [|split].
  - destruct (exit_codes (H := Decimal.numeric) Sample.engine "client"
                ["client.cfg"%string] Sample.world (Ok 0)
                (main (H := Decimal.numeric) Sample.engine "client"
                   ["client.cfg"%string] Sample.world).2)
      as (_ & _ & _ & _ & _ & _ & Hstop & _).
    { vm_compute. reflexivity. }
    apply Hstop. reflexivity.
  - destruct (exit_codes (H := Decimal.numeric) Sample.broken_engine "client"
                ["client.cfg"%string] Sample.world (Ok 1)
                (main (H := Decimal.numeric) Sample.broken_engine "client"
                   ["client.cfg"%string] Sample.world).2)
      as (_ & _ & _ & _ & Hload & _).
    { vm_compute. reflexivity. }
    apply (Hload "client.cfg"%string [] (ConfigError "File client.cfg not found")
             eq_refl eq_refl).
  - destruct (exit_codes (H := Decimal.numeric) Sample.engine "client" []
                Sample.world
                (main (H := Decimal.numeric) Sample.engine "client" [] Sample.world).1
                (add_cerr ("usage: client client.cfg" +:+ nl) Sample.world))
      as ([Hnil _] & _).
    { reflexivity. }
    apply Hnil. reflexivity.
Defined.

(** * Further properties of the code *)

(** ** splitCSV *)

Section SplitCSVMore.

Lemma comma_fields_app_comma (a b : string) :
  comma_fields (a +:+ String comma b) = comma_fields a ++ comma_fields b.
Proof.
  induction a as [|c a IH].
  - reflexivity.
  - rewrite append_cons. cbn [comma_fields].
    destruct (Ascii.eqb c comma); rewrite IH; [reflexivity|].
    destruct (comma_fields a) as [|f rest] eqn:E;
      [now apply comma_fields_nonnil in E | reflexivity].
Qed.

Lemma splitCSV_app_comma (a b : string) :
  splitCSV (a +:+ "," +:+ b) = splitCSV a ++ splitCSV b.
Proof.
  rewrite !splitCSV_fields. unfold nonempty_fields.
  change ("," +:+ b) with (String comma b).
  now rewrite comma_fields_app_comma, filter_app.
Qed.

Lemma splitCSV_empty : splitCSV "" = [].
Proof. reflexivity. Qed.

(** X1.  Splitting distributes over joining with commas: the symbols of
    [a,b] are those of [a] followed by those of [b], and the symbols of a
    comma-joined list of texts are the symbols of the texts, in order. *)
Theorem splitCSV_of_joined (a b : string) (l : list string) :
  splitCSV (a +:+ "," +:+ b) = splitCSV a ++ splitCSV b
  /\ splitCSV (String.concat "," l) = concat (map splitCSV l).
Proof.
  split; [apply splitCSV_app_comma|].
  induction l as [|x l IH]; [reflexivity|].
  destruct l as [|y l].
  - simpl. now rewrite app_nil_r.
  - rewrite concat_cons2, splitCSV_app_comma, IH. reflexivity.
Qed.

Lemma splitCSV_single (x : string) :
  comma_free x = true -> x <> ""%string -> splitCSV x = [x].
Proof.
  intros Hfree Hne. rewrite splitCSV_fields. unfold nonempty_fields.
  rewrite (comma_fields_single x Hfree), filter_keep_one.
  apply empty_false in Hne. now rewrite Hne.
Qed.

Lemma splitCSV_comma_free (s : string) :
  Forall (fun f => comma_free f = true) (splitCSV s).
Proof.
  rewrite splitCSV_fields. unfold nonempty_fields.
  apply Forall_forall. intros f Hf.
  apply list_elem_of_filter in Hf as [_ Hf].
  pose proof (comma_fields_comma_free s) as Hall.
  rewrite Forall_forall in Hall. now apply Hall.
Qed.

(** X2.  Joining symbols with commas and splitting again gives the symbols
    back, when each is non-empty and has no comma; so splitting the
    re-joined result of a split changes nothing. *)
Theorem splitCSV_join_round_trip (l : list string) (s : string) :
  (Forall (fun f => comma_free f = true /\ f <> ""%string) l ->
   splitCSV (String.concat "," l) = l)
  /\ splitCSV (String.concat "," (splitCSV s)) = splitCSV s.
Proof.
  assert (Hround : forall k : list string,
             Forall (fun f => comma_free f = true /\ f <> ""%string) k ->
             splitCSV (String.concat "," k) = k).
  { intros k Hk. induction Hk as [|x k [Hfree Hne] _ IH]; [reflexivity|].
    destruct k as [|y k].
    - simpl. now apply splitCSV_single.
    - rewrite concat_cons2, splitCSV_app_comma, IH.
      now rewrite (splitCSV_single x Hfree Hne). }
  split; [apply Hround|]. apply Hround.
  pose proof (splitCSV_comma_free s) as Hfree.
  pose proof (splitCSV_nonempty s) as Hne.
  rewrite Forall_forall in Hfree, Hne. apply Forall_forall. intros f Hf.
  split; [now apply Hfree | now apply Hne].
Qed.

Lemma splitCSV_join_round_trip_witness :
  splitCSV (String.concat "," [ "GBPUSD"; "EURUSD"; "USDJPY" ]%string)
  = [ "GBPUSD"; "EURUSD"; "USDJPY" ]%string.
Proof.
  apply (splitCSV_join_round_trip [ "GBPUSD"; "EURUSD"; "USDJPY" ]%string "").
  repeat constructor; discriminate.
Defined.

Lemma concat_empty_cons (x : string) (l : list string) :
  String.concat "" (x :: l) = x +:+ String.concat "" l.
Proof.
  destruct l as [|y l]; [simpl; now rewrite append_empty_r | reflexivity].
Qed.

Lemma concat_comma_fields_empty (s : string) :
  String.concat "" (comma_fields s) = without_commas s.
Proof.
  induction s as [|c s IH]; [reflexivity|].
  cbn [comma_fields without_commas]. destruct (Ascii.eqb c comma).
  - now rewrite concat_empty_cons, IH.
  - destruct (comma_fields s) as [|f rest] eqn:E;
      [now apply comma_fields_nonnil in E|].
    now rewrite concat_head, IH.
Qed.

Lemma concat_empty_filter (l : list string) :
  String.concat "" (filter (fun f => empty f = false) l) = String.concat "" l.
Proof.
  induction l as [|x l IH]; [reflexivity|].
  rewrite concat_empty_cons. destruct (empty x) eqn:E.
  - rewrite filter_cons_False by congruence.
    apply empty_true in E. subst x. exact IH.
  - rewrite filter_cons_True by assumption.
    now rewrite concat_empty_cons, IH.
Qed.

Lemma without_commas_empty (s : string) :
  without_commas s = ""%string <-> only_commas s = true.
Proof.
  induction s as [|c s IH]; [split; reflexivity|].
  cbn [without_commas only_commas]. destruct (Ascii.eqb c comma); simpl.
  - exact IH.
  - split; discriminate.
Qed.

(** X3.  [splitCSV] only takes commas out: its results put together are
    the input without its commas (blanks around a symbol stay part of it),
    every result is free of commas, and there is no result at all exactly
    when the input consists of commas only. *)
Theorem splitCSV_removes_only_commas (s : string) :
  String.concat "" (splitCSV s) = without_commas s
  /\ Forall (fun f => comma_free f = true) (splitCSV s)
  /\ (splitCSV s = [] <-> only_commas s = true).
Proof.
  assert (Hcat : String.concat "" (splitCSV s) = without_commas s).
  { rewrite splitCSV_fields. unfold nonempty_fields.
    now rewrite concat_empty_filter, concat_comma_fields_empty. }
  split; [exact Hcat|]. split; [apply splitCSV_comma_free|].
  rewrite <- without_commas_empty, <- Hcat. split.
  - intros ->. reflexivity.
  - intros Hnil. pose proof (splitCSV_nonempty s) as Hne.
    destruct (splitCSV s) as [|x l]; [reflexivity|].
    rewrite concat_empty_cons in Hnil. inversion Hne as [|? ? Hx _]; subst.
    destruct x; [congruence | discriminate].
Qed.

End SplitCSVMore.

(** ** The unsubscribe request and the failures of the two helpers *)

Section RequestsMore.

(** X4.  The unsubscribe request is not the subscription with another
    type: it has MDReqID REQ-1, SubscriptionRequestType 2 and MarketDepth
    0, no NoMDEntryTypes count and no NoMDEntryTypes entry, one
    NoRelatedSym entry per configured symbol with the matching count (and
    no count when there is no symbol), and nothing else. *)
Theorem unsubscribe_request_content (d : Dictionary) :
  let u := unsubscribe_request d in
  let syms := splitCSV (symbols_raw d) in
  header u = {[ BeginString := "FIX.4.4"%string; MsgType := "V"%string ]}
  /\ body u !! MDReqID = Some "REQ-1"%string
  /\ body u !! SubscriptionRequestType = Some "2"%string
  /\ body u !! MarketDepth = Some "0"%string
  /\ body u !! NoMDEntryTypes = None
  /\ group_entries u NoMDEntryTypes = []
  /\ group_entries u NoRelatedSym = map symbol_entry syms
  /\ body u !! NoRelatedSym
     = match syms with
       | [] => None
       | _ :: _ => Some (pretty (Z.of_nat (length syms)))
       end
  /\ (forall tag,
        tag <> MDReqID -> tag <> SubscriptionRequestType ->
        tag <> MarketDepth -> tag <> NoRelatedSym ->
        body u !! tag = None)
  /\ (forall tag, tag <> NoRelatedSym -> group_entries u tag = []).
Proof.
  intros u syms. subst u syms. unfold unsubscribe_request.
  rewrite header_add_symbols, !body_add_symbols_ne by discriminate.
  rewrite group_entries_add_symbols_ne by discriminate.
  rewrite group_entries_add_symbols, body_add_symbols_count.
  split; [reflexivity|]. split; [reflexivity|]. split; [reflexivity|].
  split; [reflexivity|]. split; [reflexivity|]. split; [reflexivity|].
  split; [reflexivity|].
  split; [destruct (splitCSV (symbols_raw d)); reflexivity|].
  split.
  - intros tag H1 H2 H3 H4. rewrite body_add_symbols_ne by assumption.
    now apply unsubscribe_base_other.
  - intros tag H1. now rewrite group_entries_add_symbols_ne by assumption.
Qed.

Lemma sendToTarget_unregistered (cx : Ctx) (m : Message) (sid : SessionID)
  (w : World) :
  sid ∉ registry cx -> sendToTarget cx m sid w = (Thrown SessionNotFound, w).
Proof.
  intros Hout. unfold sendToTarget. now rewrite bool_decide_eq_false_2.
Qed.

(** X5.  The helpers fail without sending: when the application's session
    is not in the settings they throw the configuration error of
    [SessionSettings::get], and when it is there but not registered with
    the engine they throw [SessionNotFound]; the world is left as it was,
    except that [onLogon] has printed its line by then. *)
Theorem helpers_fail_without_sending (cx : Ctx) (sid : SessionID) (w : World) :
  (settings_lookup (settings_ cx) (sid_ w) = None ->
   sendSubscribe cx w = (Thrown (ConfigError "Session not found"), w)
   /\ sendUnsubscribeAll cx w = (Thrown (ConfigError "Session not found"), w)
   /\ onLogon cx sid w
      = (Thrown (ConfigError "Session not found"),
         add_cout ("Logon: " +:+ SessionID_toString sid +:+ nl) w))
  /\ (forall d,
        settings_lookup (settings_ cx) (sid_ w) = Some d ->
        sid_ w ∉ registry cx ->
        sendSubscribe cx w = (Thrown SessionNotFound, w)
        /\ sendUnsubscribeAll cx w = (Thrown SessionNotFound, w)
        /\ onLogon cx sid w
           = (Thrown SessionNotFound,
              add_cout ("Logon: " +:+ SessionID_toString sid +:+ nl) w)).
Proof.
  split.
  - intros Hnone.
    assert (forall v : World, sid_ v = sid_ w ->
              sendSubscribe cx v = (Thrown (ConfigError "Session not found"), v))
      as Hsub.
    { intros v Hv. unfold sendSubscribe. rewrite run_bind. cbn [get_sid].
      rewrite run_bind. unfold settings_get. now rewrite Hv, Hnone. }
    split; [now apply Hsub|]. split.
    + unfold sendUnsubscribeAll. rewrite run_bind. cbn [get_sid].
      rewrite run_bind. unfold settings_get. now rewrite Hnone.
    + unfold onLogon. rewrite run_bind. cbn [print]. now rewrite Hsub.
  - intros d Hd Hout.
    assert (forall v : World, sid_ v = sid_ w ->
              sendSubscribe cx v = (Thrown SessionNotFound, v)) as Hsub.
    { intros v Hv. unfold sendSubscribe. rewrite run_bind. cbn [get_sid].
      rewrite run_bind. unfold settings_get. rewrite Hv, Hd. cbn [lift ret].
      now apply sendToTarget_unregistered. }
    split; [now apply Hsub|]. split.
    + unfold sendUnsubscribeAll. rewrite run_bind. cbn [get_sid].
      rewrite run_bind. unfold settings_get. rewrite Hd. cbn [lift ret].
      now apply sendToTarget_unregistered.
    + unfold onLogon. rewrite run_bind. cbn [print]. now rewrite Hsub.
Qed.

Lemma helpers_fail_without_sending_witness :
  onLogon Sample.cx Sample.sid
    (mkWorld SessionID_default false "" "" [] 0)
  = (Thrown (ConfigError "Session not found"),
     add_cout ("Logon: " +:+ SessionID_toString Sample.sid +:+ nl)
       (mkWorld SessionID_default false "" "" [] 0))
  /\ sendSubscribe (mkCtx [(Sample.sid, Sample.dict)] []) Sample.world
     = (Thrown SessionNotFound, Sample.world).
Proof.
  split.
  - apply (helpers_fail_without_sending Sample.cx Sample.sid
             (mkWorld SessionID_default false "" "" [] 0)).
    reflexivity.
  - destruct (helpers_fail_without_sending (mkCtx [(Sample.sid, Sample.dict)] [])
                Sample.sid Sample.world) as [_ Hunreg].
    apply (Hunreg Sample.dict); [reflexivity|].
    simpl. apply not_elem_of_nil.
Defined.

End RequestsMore.

(** ** The admin hook at its edges *)

Section ToAdminMore.

Lemma setField_body (tag : Z) (v : string) (m : Message) (i : Z) :
  body (setField tag v m) !! i = if decide (tag = i) then Some v else body m !! i.
Proof. cbn [setField body]. now rewrite lookup_insert. Qed.

Lemma Message_eq (m1 m2 : Message) :
  header m1 = header m2 -> groups m1 = groups m2 ->
  (forall i, body m1 !! i = body m2 !! i) -> m1 = m2.
Proof.
  destruct m1, m2. simpl. intros -> -> Hbody.
  f_equal. now apply map_eq.
Qed.

(** The edit of lines 41-42. *)
Lemma credentials_idempotent (d : Dictionary) (msg : Message) :
  let edit m :=
    let m1 := match d !! "Username"%string with
              | Some u => setField Username u m
              | None => m
              end in
    match d !! "Password"%string with
    | Some p => setField Password p m1
    | None => m1
    end in
  edit (edit msg) = edit msg.
Proof.
  intros edit. subst edit. cbv beta zeta.
  destruct (d !! "Username"%string) as [u|], (d !! "Password"%string) as [p|];
    try reflexivity; apply Message_eq; try reflexivity; intros i;
    rewrite ?setField_body; repeat case_decide;
    try discriminate; try congruence; reflexivity.
Qed.

(** X6.  The admin hook never changes the world and never throws.  It ends
    the process exactly when the message has no MsgType or is a Logon for
    an application whose session is not in the settings.  Otherwise it
    returns the message with header, groups and every body field other
    than 553 and 554 as they were; on a Logon 553 and 554 are overwritten
    by the settings that define them and left alone by those that do not;
    and running the hook again on its result, for whatever session,
    changes nothing more. *)
Theorem toAdmin_edge_cases (cx : Ctx) (msg : Message) (sid : SessionID)
  (w : World) (r : Result Message) (w' : World) :
  toAdmin cx msg sid w = (r, w') ->
  w' = w
  /\ (forall e, r <> Thrown e)
  /\ (r = Terminated <->
      header msg !! MsgType = None
      \/ (header msg !! MsgType = Some MsgType_Logon
          /\ settings_lookup (settings_ cx) (sid_ w) = None))
  /\ (forall msg',
        r = Ok msg' ->
        header msg' = header msg
        /\ groups msg' = groups msg
        /\ (forall tag, tag <> Username -> tag <> Password ->
                        body msg' !! tag = body msg !! tag)
        /\ (forall sid2, toAdmin cx msg' sid2 w = (Ok msg', w))
        /\ (forall d,
              header msg !! MsgType = Some MsgType_Logon ->
              settings_lookup (settings_ cx) (sid_ w) = Some d ->
              body msg' !! Username
              = match d !! "Username"%string with
                | Some u => Some u
                | None => body msg !! Username
                end
              /\ body msg' !! Password
                 = match d !! "Password"%string with
                   | Some p => Some p
                   | None => body msg !! Password
                   end)).
Proof.
  destruct (header msg !! MsgType) as [mt|] eqn:Hmt.
  2:{ unfold toAdmin, noexcept, getField. rewrite Hmt. cbn [lift].
      rewrite throw_bind. intros [= <- <-].
      split; [reflexivity|]. split; [discriminate|].
      split; [split; [now left | reflexivity]|]. discriminate. }
  rewrite (toAdmin_run cx msg sid w mt Hmt).
  destruct (String.eqb mt MsgType_Logon) eqn:Hlogon.
  2:{ apply String.eqb_neq in Hlogon. intros [= <- <-].
      split; [reflexivity|]. split; [discriminate|].
      split; [split; [discriminate | intros [[=]|[[= ->] _]]; congruence]|].
      intros msg' [= <-].
      split; [reflexivity|]. split; [reflexivity|]. split; [reflexivity|].
      split.
      - intros sid2. rewrite (toAdmin_run cx msg sid2 w mt Hmt).
        apply String.eqb_neq in Hlogon. now rewrite Hlogon.
      - intros d [= ->]. congruence. }
  apply String.eqb_eq in Hlogon. subst mt.
  destruct (settings_lookup (settings_ cx) (sid_ w)) as [d|] eqn:Hd.
  2:{ intros [= <- <-].
      split; [reflexivity|]. split; [discriminate|].
      split; [split; [now right | reflexivity]|]. discriminate. }
  cbv zeta. intros [= <- <-].
  split; [reflexivity|]. split; [discriminate|].
  split; [split; [discriminate | intros [[=]|[_ [=]]]]|].
  intros msg' [= <-].
  split; [destruct (d !! "Username"%string), (d !! "Password"%string); reflexivity|].
  split; [destruct (d !! "Username"%string), (d !! "Password"%string); reflexivity|].
  split.
  { intros tag H1 H2.
    destruct (d !! "Username"%string), (d !! "Password"%string);
      rewrite ?setField_body; repeat case_decide; congruence. }
  split.
  { intros sid2.
    rewrite (toAdmin_run cx _ sid2 w MsgType_Logon).
    - cbn [MsgType_Logon String.eqb Ascii.eqb Bool.eqb]. rewrite Hd. cbv zeta.
      f_equal. f_equal. apply (credentials_idempotent d msg).
    - destruct (d !! "Username"%string), (d !! "Password"%string); exact Hmt. }
  intros d' _ [= <-].
  destruct (d !! "Username"%string), (d !! "Password"%string);
    rewrite ?setField_body; repeat case_decide;
    try discriminate; try congruence; split; reflexivity.
Qed.

Lemma toAdmin_edge_cases_witness :
  toAdmin Sample.cx_default
    (setField Username "stale" Sample.logon) Sample.sid Sample.world
  = (Ok (setField Username "alice" (setField Username "stale" Sample.logon)),
     Sample.world)
  /\ body (setField Username "alice" (setField Username "stale" Sample.logon))
       !! Password = None.
Proof.
  assert (Hrun : toAdmin Sample.cx_default
                   (setField Username "stale" Sample.logon) Sample.sid Sample.world
                 = (Ok (setField Username "alice"
                          (setField Username "stale" Sample.logon)),
                    Sample.world)) by reflexivity.
  split; [exact Hrun|].
  destruct (toAdmin_edge_cases _ _ _ _ _ _ Hrun) as (_ & _ & _ & Hok).
  destruct (Hok _ eq_refl) as (_ & _ & _ & _ & Hcred).
  destruct (Hcred Sample.dict_default eq_refl eq_refl) as [_ Hpw].
  rewrite Hpw. reflexivity.
Defined.

End ToAdminMore.

(** ** The snapshot handler at its edges *)




Lemma mapM_length {A B} (f : A -> option B) (l : list A) (k : list B) :
  mapM f l = Some k -> length k = length l.
Proof. intros Hk. apply mapM_Some in Hk. symmetry. eapply Forall2_length, Hk. Qed.


Lemma fromApp_snapshot `{Numeric} (snap : Message) (sid : SessionID) (w : World) :
  header snap !! BeginString = Some "FIX.4.4"%string ->
  header snap !! MsgType = Some "W"%string ->
  fromApp snap sid w
  = throw_spec fromApp_listed (onMessage_MarketDataSnapshotFullRefresh snap) w.
Proof.
  intros Hbs Hmt. unfold fromApp, throw_spec, crack, getField.
  rewrite Hbs, Hmt. cbn [lift]. rewrite !ret_bind. reflexivity.
Qed.





Lemma entry_text_record `{Numeric} (n i : Z) (e : string * double) :
  entry_text n i e
  = record_text e +:+ (if i <? n then " | "%string else ""%string).
Proof. unfold entry_text, record_text. now rewrite !append_assoc. Qed.

Lemma entries_text_join `{Numeric} (n : Z) (es : list (string * double)) :
  forall i,
    i + Z.of_nat (length es) = n + 1 ->
    entries_text n i es = String.concat " | " (map record_text es).
Proof.
  induction es as [|e es IH]; intros i Hi; [reflexivity|].
  cbn [entries_text map]. rewrite entry_text_record.
  destruct es as [|e' es].
  - simpl in Hi. replace (i <? n) with false by (symmetry; apply Z.ltb_ge; lia).
    cbn [entries_text map String.concat]. now rewrite !append_empty_r.
  - replace (i <? n) with true
      by (symmetry; apply Z.ltb_lt; cbn [length] in Hi; lia).
    rewrite (IH (i + 1)) by (cbn [length] in *; lia).
    cbn [map]. rewrite concat_cons2, append_assoc. reflexivity.
Qed.

(** X9.  The line of a snapshot whose count matches its readable entries
    is the head, the records joined by the separator, and a newline: the
    separator stands between records only, never after the last one. *)
Theorem snapshot_line_is_joined_records `{Numeric}
  (snap : Message) (w : World) (sym cnt : string)
  (es : list (string * double)) (r : Result unit) (w' : World) :
  body snap !! Symbol = Some sym ->
  body snap !! NoMDEntries = Some cnt ->
  int_convert cnt = Some (Z.of_nat (length es)) ->
  mapM read_entry (group_entries snap NoMDEntries) = Some es ->
  onMessage_MarketDataSnapshotFullRefresh snap w = (r, w') ->
  r = Ok tt
  /\ cout w'
     = cout w +:+ "W: " +:+ sym +:+ " entries=" +:+ pretty (Z.of_nat (length es))
       +:+ " :: " +:+ String.concat " | " (map record_text es) +:+ nl.
Proof.
  intros Hsym Hcnt Hn Hes.
  rewrite (snapshot_run snap w sym cnt es Hsym Hcnt Hn Hes). intros [= <- <-].
  split; [reflexivity|]. cbn [cout add_action with_firstData add_cout].
  rewrite (entries_text_join _ es 1) by lia. reflexivity.
Qed.

Lemma snapshot_line_is_joined_records_witness :
  cout (onMessage_MarketDataSnapshotFullRefresh (H := Decimal.numeric)
          Sample.snapshot Sample.world).2
  = ("W: GBPUSD entries=2 :: " +:+ String.concat " | " [ "BID=1.25"; "ASK=1.2502" ] +:+ nl)%string.
Proof.
  destruct (snapshot_line_is_joined_records (H := Decimal.numeric)
              Sample.snapshot Sample.world "GBPUSD" "2"
              [ ("0"%string, (false, (12500, 4%nat)));
                ("1"%string, (false, (12502, 4%nat))) ]
              (Ok tt)
              (onMessage_MarketDataSnapshotFullRefresh (H := Decimal.numeric)
                 Sample.snapshot Sample.world).2
              eq_refl eq_refl eq_refl eq_refl eq_refl) as [_ Hcout].
  rewrite Hcout. reflexivity.
Defined.

(** X10.  A snapshot without Symbol, and then one without a NoMDEntries
    count, is refused before anything is printed, with the world
    unchanged.  A count that is no integer is refused where line 68
    converts it: the console has received the insertions made before the
    conversion, a leading part of the text W: symbol entries= (nothing when
    the operand is evaluated first, all of it when evaluation goes from
    left to right) and never the count, a record or the end of the line;
    the rest of the world is unchanged.  [fromApp] passes each of these
    exceptions on to the engine. *)
Theorem snapshot_refusals `{Numeric} (snap : Message) (sid : SessionID)
  (w : World) :
  let refused e w' :=
    onMessage_MarketDataSnapshotFullRefresh snap w = (Thrown e, w')
    /\ (header snap !! BeginString = Some "FIX.4.4"%string ->
        header snap !! MsgType = Some "W"%string ->
        fromApp snap sid w = (Thrown e, w')) in
  (body snap !! Symbol = None -> refused (FieldNotFound Symbol) w)
  /\ (forall sym,
        body snap !! Symbol = Some sym ->
        body snap !! NoMDEntries = None ->
        refused (FieldNotFound NoMDEntries) w)
  /\ (forall sym cnt,
        body snap !! Symbol = Some sym ->
        body snap !! NoMDEntries = Some cnt ->
        int_convert cnt = None ->
        let p := inserted (take insertions_before_count (head_parts sym)) in
        refused (IncorrectDataFormat NoMDEntries) (add_cout p w)
        /\ (exists rest, "W: " +:+ sym +:+ " entries=" = p +:+ rest)
        /\ (insertions_before_count = 0%nat -> add_cout p w = w)
        /\ ((3 <= insertions_before_count)%nat ->
            p = "W: " +:+ sym +:+ " entries=")
        /\ firstData_ (add_cout p w) = firstData_ w
        /\ actions (add_cout p w) = actions w
        /\ sid_ (add_cout p w) = sid_ w
        /\ cerr (add_cout p w) = cerr w
        /\ clock (add_cout p w) = clock w).
Proof.
  intros refused. subst refused. cbv beta.
  assert (Hfrom : forall e w',
             fromApp_listed e = true ->
             onMessage_MarketDataSnapshotFullRefresh snap w = (Thrown e, w') ->
             header snap !! BeginString = Some "FIX.4.4"%string ->
             header snap !! MsgType = Some "W"%string ->
             fromApp snap sid w = (Thrown e, w')).
  { intros e w' He Hrun Hbs Hmt. rewrite (fromApp_snapshot snap sid w Hbs Hmt).
    unfold throw_spec. now rewrite Hrun, He. }
  split; [|split].
  - intros Hsym.
    assert (onMessage_MarketDataSnapshotFullRefresh snap w
            = (Thrown (FieldNotFound Symbol), w)) as Hrun.
    { unfold onMessage_MarketDataSnapshotFullRefresh, getField.
      now rewrite Hsym. }
    split; [exact Hrun | now apply Hfrom].
  - intros sym Hsym Hcnt.
    assert (onMessage_MarketDataSnapshotFullRefresh snap w
            = (Thrown (FieldNotFound NoMDEntries), w)) as Hrun.
    { unfold onMessage_MarketDataSnapshotFullRefresh, getField.
      rewrite Hsym, Hcnt. cbn [lift]. now rewrite ret_bind. }
    split; [exact Hrun | now apply Hfrom].
  - intros sym cnt Hsym Hcnt Hn p.
    pose proof (snapshot_count_refused snap w sym cnt Hsym Hcnt Hn) as Hrun.
    fold p in Hrun.
    split; [split; [exact Hrun | now apply Hfrom]|].
    split.
    { exists (inserted (drop insertions_before_count (head_parts sym))).
      subst p.
      rewrite <- (append_empty_r (inserted (drop _ _))).
      rewrite inserted_take_drop, head_text.
      now rewrite !append_empty_r. }
    split.
    { intros Hk. subst p. rewrite Hk. apply add_cout_empty. }
    split.
    { intros Hk. subst p.
      rewrite (take_ge (head_parts sym)) by exact Hk.
      rewrite <- (append_empty_r (inserted _)), head_text.
      now rewrite !append_empty_r. }
    repeat split.
Qed.


(** ** What each callback touches *)

Lemma sendSubscribe_cases (cx : Ctx) (w : World) :
  (exists d, settings_lookup (settings_ cx) (sid_ w) = Some d
             /\ sendSubscribe cx w
                = (Ok tt, add_action (SendToTarget (subscribe_request d) (sid_ w)) w))
  \/ (exists e, sendSubscribe cx w = (Thrown e, w)).
Proof.
  destruct (settings_lookup (settings_ cx) (sid_ w)) as [d|] eqn:Hd.
  - destruct (decide (sid_ w ∈ registry cx)) as [Hreg|Hreg].
    + left. exists d. split; [reflexivity | now apply sendSubscribe_run].
    + right. exists SessionNotFound.
      unfold sendSubscribe. rewrite run_bind. cbn [get_sid].
      rewrite run_bind. unfold settings_get. rewrite Hd. cbn [lift ret].
      unfold sendToTarget. now rewrite bool_decide_eq_false_2.
  - right. exists (ConfigError "Session not found").
    unfold sendSubscribe. rewrite run_bind. cbn [get_sid].
    rewrite run_bind. unfold settings_get. now rewrite Hd.
Qed.

Lemma only_notifies_refl (w : World) : only_notifies w w.
Proof. exists []. split; [now rewrite app_nil_r | constructor]. Qed.

Lemma only_notifies_trans (a b c : World) :
  only_notifies a b -> only_notifies b c -> only_notifies a c.
Proof.
  intros (l1 & E1 & Q1) (l2 & E2 & Q2). exists (l1 ++ l2). split.
  - now rewrite E2, E1, app_assoc.
  - now apply Forall_app.
Qed.

Lemma only_notifies_same (w w' : World) :
  actions w' = actions w -> only_notifies w w'.
Proof. intros E. exists []. split; [now rewrite app_nil_r | constructor]. Qed.

Lemma only_notifies_action (a : Action) (w : World) :
  is_notify a -> only_notifies w (add_action a w).
Proof. intros Ha. exists [a]. split; [reflexivity | now repeat constructor]. Qed.

Lemma same_cerr_callback `{Numeric} (cx : Ctx) (cb : Callback) :
  respects same_cerr (run_callback cx cb).
Proof.
  apply (respects_run_callback same_cerr any_action); unfold same_cerr;
    try (intros; simpl; congruence); constructor.
Qed.

Lemma same_clock_callback `{Numeric} (cx : Ctx) (cb : Callback) :
  respects same_clock (run_callback cx cb).
Proof.
  apply (respects_run_callback same_clock any_action); unfold same_clock;
    try (intros; simpl; congruence); constructor.
Qed.

Lemma same_sid_callback `{Numeric} (cx : Ctx) (cb : Callback) :
  (forall sid, cb <> OnCreate sid) -> respects same_sid (run_callback cx cb).
Proof.
  intros Hcb.
  assert (Hrefl : forall w, same_sid w w) by reflexivity.
  assert (Htrans : forall a b c, same_sid a b -> same_sid b c -> same_sid a c)
    by (unfold same_sid; intros; congruence).
  assert (Hcout : forall s w, same_sid w (add_cout s w)) by reflexivity.
  assert (Hact : forall a w, any_action a -> same_sid w (add_action a w))
    by reflexivity.
  assert (Hset : forall w, same_sid w (with_firstData true w)) by reflexivity.
  assert (Hany : forall a, any_action a) by constructor.
  destruct cb as [s|s|s|msg s|msg s|msg s|msg s]; cbn [run_callback].
  - now destruct (Hcb s).
  - apply (respects_onLogon same_sid any_action); auto.
  - apply (respects_onLogout same_sid); auto.
  - apply respects_bind; auto.
    + apply (respects_toAdmin same_sid); auto.
    + intros _. now apply respects_ret.
  - now apply respects_ret.
  - now apply respects_ret.
  - unfold fromApp. apply respects_throw_spec.
    apply (respects_crack same_sid any_action); auto.
Qed.

Lemma only_notifies_callback `{Numeric} (cx : Ctx) (cb : Callback) :
  (forall sid, cb <> OnLogon sid) -> respects only_notifies (run_callback cx cb).
Proof.
  intros Hcb.
  assert (Hcout : forall s w, only_notifies w (add_cout s w))
    by (intros; now apply only_notifies_same).
  assert (Hsid : forall s w, only_notifies w (with_sid s w))
    by (intros; now apply only_notifies_same).
  assert (Hset : forall w, only_notifies w (with_firstData true w))
    by (intros; now apply only_notifies_same).
  pose proof only_notifies_refl as Hrefl.
  pose proof only_notifies_trans as Htrans.
  pose proof only_notifies_action as Hact.
  destruct cb as [s|s|s|msg s|msg s|msg s|msg s]; cbn [run_callback].
  - apply (respects_onCreate only_notifies); auto.
  - now destruct (Hcb s).
  - apply (respects_onLogout only_notifies); auto.
  - apply respects_bind; auto.
    + apply (respects_toAdmin only_notifies); auto.
    + intros _. now apply respects_ret.
  - now apply respects_ret.
  - now apply respects_ret.
  - unfold fromApp. apply respects_throw_spec.
    apply (respects_crack only_notifies is_notify); auto. reflexivity.
Qed.

(** X11.  Each callback keeps to its part of the state.  None writes to
    the error stream or lets time pass; only [onCreate] changes the
    session the application remembers; only [onLogon] sends, and what it
    sends is at most the one subscription request of the remembered
    session; every other callback adds at most notifications of the
    waiters, and none at all unless it delivers a snapshot. *)
Theorem callbacks_keep_to_their_part `{Numeric} (cx : Ctx) (cb : Callback)
  (w : World) (r : Result unit) (w' : World) :
  run_callback cx cb w = (r, w') ->
  cerr w' = cerr w
  /\ clock w' = clock w
  /\ ((forall sid, cb <> OnCreate sid) -> sid_ w' = sid_ w)
  /\ ((forall sid, cb <> OnLogon sid) ->
      exists l, actions w' = actions w ++ l /\ Forall is_notify l)
  /\ ((forall sid, cb <> OnLogon sid) -> delivers_snapshot cb = false ->
      actions w' = actions w)
  /\ (forall sid,
        cb = OnLogon sid ->
        actions w' = actions w
        \/ exists d,
             settings_lookup (settings_ cx) (sid_ w) = Some d
             /\ actions w' = actions w ++ [SendToTarget (subscribe_request d) (sid_ w)]).
Proof.
  intros Hrun.
  split; [eapply same_cerr_callback, Hrun|].
  split; [eapply same_clock_callback, Hrun|].
  split; [intros Hcb; eapply same_sid_callback; eassumption|].
  split; [intros Hcb; eapply only_notifies_callback; eassumption|].
  split.
  { intros Hlogon Hsnap.
    assert (Hsame : respects (fun a b => actions b = actions a)
                      (run_callback cx cb)).
    { assert (Hrefl : forall v : World, actions v = actions v) by reflexivity.
      assert (Htrans : forall a b c : World,
                 actions b = actions a -> actions c = actions b ->
                 actions c = actions a) by (intros; congruence).
      destruct cb as [s|s|s|msg s|msg s|msg s|msg s]; cbn [run_callback].
      - apply respects_onCreate; auto.
      - now destruct (Hlogon s).
      - apply respects_onLogout; auto.
      - apply respects_bind; auto.
        + apply respects_toAdmin; auto.
        + intros _. now apply respects_ret.
      - now apply respects_ret.
      - now apply respects_ret.
      - unfold fromApp. apply respects_throw_spec.
        apply respects_crack_other; auto.
        cbn [delivers_snapshot] in Hsnap.
        now apply bool_decide_eq_false in Hsnap. }
    exact (Hsame _ _ _ Hrun). }
  intros sid ->. cbn [run_callback] in Hrun. unfold onLogon in Hrun.
  rewrite run_bind in Hrun. cbn [print] in Hrun.
  destruct (sendSubscribe_cases cx (add_cout ("Logon: " +:+ SessionID_toString sid +:+ nl) w))
    as [(d & Hd & Hsub)|(e & Hsub)]; rewrite Hsub in Hrun;
    injection Hrun as _ <-.
  - right. exists d. split; [exact Hd | reflexivity].
  - now left.
Qed.

Lemma callbacks_keep_to_their_part_witness :
  actions (run_callback (H := Decimal.numeric) Sample.cx
             (FromApp Sample.reject Sample.sid) Sample.world).2
  = actions Sample.world
  /\ sid_ (run_callback (H := Decimal.numeric) Sample.cx
             (OnLogon Sample3.sid_a) Sample.world).2
     = Sample.sid.
Proof.
  split.
  - destruct (callbacks_keep_to_their_part (H := Decimal.numeric) Sample.cx
                (FromApp Sample.reject Sample.sid) Sample.world (Ok tt)
                (run_callback (H := Decimal.numeric) Sample.cx
                   (FromApp Sample.reject Sample.sid) Sample.world).2 eq_refl)
      as (_ & _ & _ & _ & Hquiet & _).
    apply Hquiet; [discriminate | reflexivity].
  - destruct (callbacks_keep_to_their_part (H := Decimal.numeric) Sample.cx
                (OnLogon Sample3.sid_a) Sample.world (Ok tt)
                (run_callback (H := Decimal.numeric) Sample.cx
                   (OnLogon Sample3.sid_a) Sample.world).2 eq_refl)
      as (_ & _ & Hsid & _).
    apply Hsid. discriminate.
Defined.

(** ** The wait and the worker never throw *)

Section WaitMore.
Context `{Numeric}.
Variable cx : Ctx.
Variable eng : Engine.

Lemma run_callbacks_not_thrown (cbs : list Callback) :
  forall w e w', run_callbacks cx eng cbs w <> (Thrown e, w').
Proof.
  induction cbs as [|cb cbs IH]; intros w e w'; cbn [run_callbacks].
  - discriminate.
  - rewrite run_bind. unfold absorbed.
    destruct (run_callback cx cb w) as [[[]|x|] w1].
    + apply IH.
    + destruct (absorbs eng x); [apply IH | discriminate].
    + discriminate.
Qed.

Lemma tick_not_thrown (w : World) (e : Exn) (w' : World) :
  tick cx eng w <> (Thrown e, w').
Proof. rewrite tick_run. apply run_callbacks_not_thrown. Qed.

Lemma block_not_thrown (k : nat) :
  forall w e w', block cx eng k w <> (Thrown e, w').
Proof.
  induction k as [|k IH]; intros w e w'; cbn [block]; [discriminate|].
  rewrite run_bind. destruct (tick cx eng w) as [[[]|x|] w1] eqn:Htick.
  - apply IH.
  - now apply tick_not_thrown in Htick.
  - discriminate.
Qed.

Lemma wait_until_pred_result (left : nat) :
  forall w r w',
    wait_until_pred cx eng left w = (r, w') ->
    (forall e, r <> Thrown e)
    /\ (forall b, r = Ok b ->
                  b = firstData_ w'
                  /\ (b = false -> clock w' = (clock w + left)%nat)).
Proof.
  induction left as [|l IH]; intros w r w' Hrun; cbn [wait_until_pred] in Hrun.
  - injection Hrun as <- <-. split; [discriminate|].
    intros b [= <-]. split; [reflexivity | intros _; lia].
  - rewrite run_bind in Hrun.
    destruct (tick cx eng w) as [[[]|x|] w1] eqn:Htick.
    + pose proof (tick_clock _ _ _ _ _ Htick) as Hclock.
      rewrite run_bind in Hrun. cbn [now] in Hrun.
      rewrite run_bind in Hrun. cbn [load_firstData] in Hrun.
      destruct (woken eng (clock w1) && firstData_ w1) eqn:Hwake.
      * injection Hrun as <- <-. split; [discriminate|].
        intros b [= <-]. apply andb_true_iff in Hwake as [_ ->].
        split; [reflexivity | discriminate].
      * apply IH in Hrun as [Hthrown Hok]. split; [exact Hthrown|].
        intros b Hb. destruct (Hok b Hb) as [Hflag Hlate].
        split; [exact Hflag|]. intros Hoff. rewrite (Hlate Hoff). lia.
    + now apply tick_not_thrown in Htick.
    + injection Hrun as <- <-. split; discriminate.
Qed.

End WaitMore.

(** X12.  The wait never throws, and what it returns is the signal as it
    stands on return; a negative result is returned at the deadline only,
    never earlier, and a deadline of zero or less returns the signal at
    once. *)
Theorem wait_returns_the_signal `{Numeric} (cx : Ctx) (eng : Engine) (ms : Z)
  (w : World) (r : Result bool) (w' : World) :
  waitFirstDataMs cx eng ms w = (r, w') ->
  (forall e, r <> Thrown e)
  /\ (forall b, r = Ok b ->
                b = firstData_ w'
                /\ (b = false -> clock w' = (clock w + Z.to_nat ms)%nat))
  /\ (ms <= 0 -> r = Ok (firstData_ w) /\ w' = w).
Proof.
  unfold waitFirstDataMs. rewrite run_bind. cbn [load_firstData].
  destruct (firstData_ w) eqn:Hflag.
  - intros [= <- <-]. split; [discriminate|]. split.
    + intros b [= <-]. split; [now rewrite Hflag | discriminate].
    + intros _. split; reflexivity.
  - intros Hrun. pose proof (wait_until_pred_result cx eng _ _ _ _ Hrun) as [Ht Hok].
    split; [exact Ht|]. split; [exact Hok|].
    intros Hms. replace (Z.to_nat ms) with 0%nat in Hrun by lia.
    cbn [wait_until_pred load_firstData] in Hrun. injection Hrun as <- <-.
    now rewrite Hflag.
Qed.

Lemma wait_returns_the_signal_witness :
  (waitFirstDataMs (H := Decimal.numeric) Sample.cx Sample.engine 60 Sample.world).1
  = Ok true
  /\ clock (waitFirstDataMs (H := Decimal.numeric) Sample.cx Sample.quiet_engine
              60 Sample.world).2
     = 60%nat.
Proof.
  split.
  - destruct (wait_returns_the_signal (H := Decimal.numeric) Sample.cx Sample.engine
                60 Sample.world
                (waitFirstDataMs (H := Decimal.numeric) Sample.cx Sample.engine 60
                   Sample.world).1
                (waitFirstDataMs (H := Decimal.numeric) Sample.cx Sample.engine 60
                   Sample.world).2 eq_refl) as (_ & Hok & _).
    destruct (Hok true eq_refl) as [_ _]. reflexivity.
  - destruct (wait_returns_the_signal (H := Decimal.numeric) Sample.cx
                Sample.quiet_engine 60 Sample.world (Ok false)
                (waitFirstDataMs (H := Decimal.numeric) Sample.cx Sample.quiet_engine
                   60 Sample.world).2 eq_refl) as (_ & Hok & _).
    destruct (Hok false eq_refl) as [_ Hlate]. now rewrite Hlate.
Defined.

(** ** Several sessions *)

Lemma created_sessions_run (sids : list SessionID) :
  forall w,
    created_sessions sids w
    = (Ok tt, match sids with
              | [] => w
              | _ :: _ => with_sid (List.last sids SessionID_default) w
              end).
Proof.
  induction sids as [|s sids IH]; intros w; [reflexivity|].
  cbn [created_sessions]. rewrite run_bind. cbn [onCreate set_sid].
  rewrite IH. destruct sids as [|s' sids]; reflexivity.
Qed.

(** X13.  The application remembers one session only, the last one the
    initiator created.  After the creation of several sessions, a logon
    of any of them sends the subscription of that last session, built
    from its symbols, to that last session; and a Logon of any of them
    gets the Username of that last session. *)
Theorem last_created_session_serves_all
  (cx : Ctx) (sids : list SessionID) (w : World) (d : Dictionary) :
  sids <> [] ->
  let own := List.last sids SessionID_default in
  settings_lookup (settings_ cx) own = Some d ->
  own ∈ registry cx ->
  created_sessions sids w = (Ok tt, with_sid own w)
  /\ (forall sid,
        onLogon cx sid (with_sid own w)
        = (Ok tt,
           add_action (SendToTarget (subscribe_request d) own)
             (add_cout ("Logon: " +:+ SessionID_toString sid +:+ nl)
                (with_sid own w))))
  /\ (forall msg sid u,
        header msg !! MsgType = Some MsgType_Logon ->
        d !! "Username"%string = Some u ->
        exists msg',
          toAdmin cx msg sid (with_sid own w) = (Ok msg', with_sid own w)
          /\ body msg' !! Username = Some u).
Proof.
  intros Hne own Hd Hreg. subst own.
  split.
  { rewrite created_sessions_run. destruct sids; [congruence | reflexivity]. }
  split.
  { intros sid. unfold onLogon. rewrite run_bind. cbn [print].
    rewrite (sendSubscribe_run cx _ d) by assumption. reflexivity. }
  intros msg sid u Hmt Hu.
  rewrite (toAdmin_run cx msg sid _ MsgType_Logon Hmt).
  cbn [MsgType_Logon String.eqb Ascii.eqb Bool.eqb sid_ with_sid].
  rewrite Hd, Hu. cbv zeta.
  destruct (d !! "Password"%string) as [p|]; eexists; (split; [reflexivity|]);
    rewrite ?setField_body; repeat case_decide; try discriminate; congruence.
Qed.

Lemma last_created_session_serves_all_witness :
  onLogon Sample3.cx Sample3.sid_a (with_sid Sample3.sid_b Sample.world)
  = (Ok tt,
     add_action (SendToTarget (subscribe_request Sample3.dict_b) Sample3.sid_b)
       (add_cout ("Logon: " +:+ SessionID_toString Sample3.sid_a +:+ nl)
          (with_sid Sample3.sid_b Sample.world)))
  /\ group_entries (subscribe_request Sample3.dict_b) NoRelatedSym
     = [ symbol_entry "USDJPY" ].
Proof.
  assert (Hne : [Sample3.sid_a; Sample3.sid_b] <> []) by discriminate.
  assert (Hreg : List.last [Sample3.sid_a; Sample3.sid_b] SessionID_default
                 ∈ registry Sample3.cx)
    by (simpl; apply list_elem_of_further, list_elem_of_here).
  destruct (last_created_session_serves_all Sample3.cx
              [Sample3.sid_a; Sample3.sid_b] Sample.world Sample3.dict_b
              Hne eq_refl Hreg) as (_ & Hlogon & _).
  split; [apply Hlogon | reflexivity].
Defined.

(** ** What a run of main leaves behind *)

Section FrameMain.
Context `{Numeric}.
Variable eng : Engine.
Variable R : World -> World -> Prop.
Hypothesis R_refl : forall w, R w w.
Hypothesis R_trans : forall a b c, R a b -> R b c -> R a c.
Hypothesis R_cout : forall s w, R w (add_cout s w).
Hypothesis R_action : forall a w, R w (add_action a w).
Hypothesis R_sid : forall sid w, R w (with_sid sid w).
Hypothesis R_set : forall b w, R w (with_firstData b w).
Hypothesis R_later : forall w, R w (later w).

Lemma R_any_action (a : Action) (w : World) :
  any_action a -> R w (add_action a w).
Proof. intros _. apply R_action. Qed.

Lemma any_action_send (m : Message) (sid : SessionID) :
  any_action (SendToTarget m sid).
Proof. exact I. Qed.

Lemma respects_logout_first (cx : Ctx) : respects R (logout_first cx).
Proof.
  unfold logout_first. destruct (getSessions (settings_ cx)) as [|s ss].
  - now apply respects_mret.
  - destruct (bool_decide (s ∈ registry cx)).
    + intros w r w' [= <- <-]. apply R_action.
    + now apply respects_mret.
Qed.

Lemma respects_shutdown (cx : Ctx) : respects R (shutdown eng cx).
Proof.
  unfold shutdown, unsubscribe_and_logout.
  apply respects_bind; [assumption | |intros _].
  { apply respects_bind; [assumption | |intros _; apply respects_logout_first].
    apply (respects_sendUnsubscribeAll R any_action); auto using R_any_action.
    exact any_action_send. }
  apply respects_bind; [assumption | |intros _].
  { intros w r w' [= <- <-]. apply R_action. }
  apply respects_bind; [assumption | |intros _].
  { apply (respects_block R any_action); auto using R_any_action.
    - exact any_action_send.
    - exact I. }
  apply respects_bind; [assumption | |intros _].
  { intros w r w' [= <- <-]. apply R_action. }
  now apply respects_mret.
Qed.

Lemma respects_run_session (cx : Ctx) : respects R (run_session eng cx).
Proof.
  unfold run_session.
  apply respects_bind; [assumption | |intros _].
  { destruct (start_result eng); intros w r w' [= <- <-];
      [apply R_refl | apply R_action]. }
  apply respects_bind; [assumption | |intros _].
  { apply (respects_waitFirstDataMs R any_action); auto using R_any_action.
    - exact any_action_send.
    - exact I. }
  apply respects_bind; [assumption | |intros _].
  { intros w r w' [= <- <-]. apply R_cout. }
  apply respects_bind; [assumption | |intros _].
  { apply (respects_block R any_action); auto using R_any_action.
    - exact any_action_send.
    - exact I. }
  apply respects_shutdown.
Qed.

Lemma respects_main_try (arg : string) : respects R (main_try eng arg).
Proof.
  unfold main_try.
  apply respects_bind; [assumption | |intros settings].
  { now apply respects_from_engine. }
  apply respects_bind; [assumption | |intros _].
  { apply respects_new_App; auto. }
  apply respects_bind; [assumption | |intros created].
  { now apply respects_from_engine. }
  apply respects_bind; [assumption | |intros _].
  { now apply respects_created_sessions. }
  apply respects_run_session.
Qed.

End FrameMain.

Lemma main_try_ok_zero `{Numeric} (eng : Engine) (arg : string) (w : World)
  (c : Z) (w0 : World) :
  main_try eng arg w = (Ok c, w0) -> c = 0.
Proof.
  intros Htry.
  apply main_try_trace in Htry
    as (l & _ & [[_ []]|(settings & created & _ & _ & T)]).
  destruct T as [[_ []]|(l1 & d & sid & l3 & tail & _ & _ & _ & _ & _ & Hend)].
  now destruct Hend as [[[= ->] _]|[[] _]].
Qed.

(** X14.  [main] writes to the error stream at most one line, at its end:
    nothing when it exits with code 0 or the process is ended, the fatal
    line of one exception when it exits with code 1, the usage line when
    it exits with code 2; no callback and no step of the session writes
    there. *)
Theorem main_error_stream `{Numeric} (eng : Engine) (argv0 : string)
  (args : list string) (w : World) (r : Result Z) (w' : World) :
  main eng argv0 args w = (r, w') ->
  (r = Ok 0 \/ r = Terminated -> cerr w' = cerr w)
  /\ (r = Ok 1 -> exists e, cerr w' = cerr w +:+ "fatal: " +:+ what e +:+ nl)
  /\ (r = Ok 2 -> cerr w' = cerr w +:+ "usage: " +:+ argv0 +:+ " client.cfg" +:+ nl).
Proof.
  destruct args as [|arg rest].
  { intros [= <- <-]. split; [intros [[=]|[=]]|]. split; [discriminate|].
    intros _. reflexivity. }
  rewrite main_with_argument.
  destruct (main_try eng arg w) as [r0 w0] eqn:Htry.
  assert (Hsame : cerr w0 = cerr w).
  { apply (respects_main_try eng same_cerr) in Htry; unfold same_cerr in *;
      try (intros; simpl; congruence). }
  destruct r0 as [c|e|]; intros [= <- <-].
  - apply main_try_ok_zero in Htry. subst c.
    split; [intros _; exact Hsame|]. split; discriminate.
  - split; [intros [[=]|[=]]|]. split; [|discriminate].
    intros _. exists e. cbn [cerr add_cerr]. now rewrite Hsame.
  - split; [intros _; exact Hsame|]. split; discriminate.
Qed.

Lemma main_error_stream_witness :
  cerr (main (H := Decimal.numeric) Sample.engine "client" ["client.cfg"%string]
          Sample.world).2
  = ""%string.
Proof.
  destruct (main_error_stream (H := Decimal.numeric) Sample.engine "client"
              ["client.cfg"%string] Sample.world (Ok 0)
              (main (H := Decimal.numeric) Sample.engine "client"
                 ["client.cfg"%string] Sample.world).2) as [Hclean _].
  { vm_compute. reflexivity. }
  rewrite Hclean; [reflexivity | now left].
Defined.

Section FatalRun.
Context `{Numeric}.
Variable eng : Engine.

Lemma extends_before_shutdown_same (w w' : World) :
  actions w' = actions w -> extends_before_shutdown w w'.
Proof. intros E. exists []. split; [now rewrite app_nil_r | constructor]. Qed.

Lemma extends_before_shutdown_trans (a b c : World) :
  extends_before_shutdown a b -> extends_before_shutdown b c ->
  extends_before_shutdown a c.
Proof.
  intros (l1 & E1 & Q1) (l2 & E2 & Q2). exists (l1 ++ l2). split.
  - now rewrite E2, E1, app_assoc.
  - now apply Forall_app.
Qed.

Lemma extends_before_shutdown_action (a : Action) (w : World) :
  before_shutdown a -> extends_before_shutdown w (add_action a w).
Proof. intros Ha. exists [a]. split; [reflexivity | now repeat constructor]. Qed.

Ltac before_shutdown_frame lem :=
  apply (lem extends_before_shutdown before_shutdown);
  first [ exact extends_before_shutdown_trans
        | exact extends_before_shutdown_action
        | intros; now apply extends_before_shutdown_same
        | intros; exact I ].

Lemma before_shutdown_wait (cx : Ctx) (ms : Z) :
  respects extends_before_shutdown (waitFirstDataMs cx eng ms).
Proof. before_shutdown_frame respects_waitFirstDataMs. Qed.

Lemma before_shutdown_block (cx : Ctx) (k : nat) :
  respects extends_before_shutdown (block cx eng k).
Proof. before_shutdown_frame respects_block. Qed.

Lemma on_throw_bind {A B} (m : M A) (k : A -> M B) :
  respects extends_before_shutdown m ->
  (forall a, on_throw extends_before_shutdown (k a)) ->
  on_throw extends_before_shutdown (m ≫= k).
Proof.
  intros Hm Hk w e w' Hrun. rewrite run_bind in Hrun.
  destruct (m w) as [[a|x|] w1] eqn:Hmw.
  - eapply extends_before_shutdown_trans; [eapply Hm, Hmw | eapply Hk, Hrun].
  - injection Hrun as _ <-. eapply Hm, Hmw.
  - discriminate.
Qed.

Lemma shutdown_on_throw (cx : Ctx) :
  on_throw extends_before_shutdown (shutdown eng cx).
Proof.
  intros w e w'. unfold shutdown, unsubscribe_and_logout. rewrite !run_bind.
  destruct (sendUnsubscribeAll_cases cx w) as [(d & Hd & Hreg & ->)|(x & ->)].
  2:{ intros [= _ <-]. now apply extends_before_shutdown_same. }
  destruct (logout_first_run cx (add_action (SendToTarget (unsubscribe_request d) (sid_ w)) w))
    as (w2 & -> & _).
  rewrite run_bind. cbn [act]. rewrite run_bind.
  destruct (block cx eng 300 (add_action (Sleep 300) w2)) as [[[]|x|] w3] eqn:Hb.
  - rewrite run_bind. cbn [act]. discriminate.
  - now apply block_not_thrown in Hb.
  - discriminate.
Qed.

Lemma run_session_on_throw (cx : Ctx) :
  on_throw extends_before_shutdown (run_session eng cx).
Proof.
  unfold run_session.
  apply on_throw_bind; [|intros _].
  { destruct (start_result eng); intros w r w' [= <- <-];
      [now apply extends_before_shutdown_same
      | now apply extends_before_shutdown_action]. }
  apply on_throw_bind; [apply before_shutdown_wait | intros _].
  apply on_throw_bind; [|intros _].
  { intros w r w' [= <- <-]. now apply extends_before_shutdown_same. }
  apply on_throw_bind; [apply before_shutdown_block | intros _].
  apply shutdown_on_throw.
Qed.

Lemma main_try_on_throw (arg : string) :
  on_throw extends_before_shutdown (main_try eng arg).
Proof.
  unfold main_try.
  apply on_throw_bind; [|intros settings].
  { destruct (load_settings eng arg); intros w r w' [= <- <-];
      now apply extends_before_shutdown_same. }
  apply on_throw_bind; [|intros _].
  { intros w r w' [= <- <-]. now apply extends_before_shutdown_same. }
  apply on_throw_bind; [|intros created].
  { destruct (create_sessions eng settings); intros w r w' [= <- <-];
      now apply extends_before_shutdown_same. }
  apply on_throw_bind; [|intros _].
  { intros w r w' Hrun. rewrite created_sessions_run in Hrun.
    injection Hrun as _ <-. apply extends_before_shutdown_same.
    now destruct created. }
  apply run_session_on_throw.
Qed.

End FatalRun.

(** X15.  A run of [main] that exits with code 1 has made no logout
    request, has not slept and has not stopped the initiator: its actions
    are at most the start and what the callbacks did (requests sent and
    notifications).  After the start, the exception can only come from
    [sendUnsubscribeAll]. *)
Theorem fatal_exit_skips_shutdown `{Numeric} (eng : Engine) (argv0 : string)
  (args : list string) (w : World) (w' : World) :
  main eng argv0 args w = (Ok 1, w') ->
  exists l, actions w' = actions w ++ l /\ Forall before_shutdown l.
Proof.
  destruct args as [|arg rest]; [discriminate|].
  rewrite main_with_argument.
  destruct (main_try eng arg w) as [[c|e|] w0] eqn:Htry.
  - intros [= -> <-]. now apply main_try_ok_zero in Htry.
  - intros [= <-]. apply main_try_on_throw in Htry. exact Htry.
  - discriminate.
Qed.

Lemma fatal_exit_skips_shutdown_witness :
  (main (H := Decimal.numeric) Sample3.engine_no_sessions "client"
     ["client.cfg"%string] Sample.world).1 = Ok 1
  /\ exists l,
       actions (main (H := Decimal.numeric) Sample3.engine_no_sessions "client"
                  ["client.cfg"%string] Sample.world).2
       = actions Sample.world ++ l
       /\ Forall before_shutdown l.
Proof.
  assert (Hrun : main (H := Decimal.numeric) Sample3.engine_no_sessions "client"
                   ["client.cfg"%string] Sample.world
                 = (Ok 1,
                    (main (H := Decimal.numeric) Sample3.engine_no_sessions "client"
                       ["client.cfg"%string] Sample.world).2))
    by (vm_compute; reflexivity).
  split; [vm_compute; reflexivity|].
  exact (fatal_exit_skips_shutdown _ _ _ _ _ Hrun).
Defined.

(** ** A run against a silent peer *)

Section SilentRun.
Context `{Numeric}.
Variable eng : Engine.
Hypothesis silent : forall t, worker eng t = [].

Lemma later_by_eq (k : nat) :
  forall w,
    later_by k w
    = {| sid_ := sid_ w; firstData_ := firstData_ w; cout := cout w;
         cerr := cerr w; actions := actions w; clock := (clock w + k)%nat |}.
Proof.
  induction k as [|k IH]; intros w; cbn [later_by].
  - destruct w. cbn. now rewrite Nat.add_0_r.
  - rewrite IH. cbn [later sid_ firstData_ cout cerr actions clock].
    f_equal. lia.
Qed.

Lemma add_actions_eq (l : list Action) :
  forall w,
    add_actions l w
    = {| sid_ := sid_ w; firstData_ := firstData_ w; cout := cout w;
         cerr := cerr w; actions := actions w ++ l; clock := clock w |}.
Proof.
  induction l as [|a l IH]; intros w; unfold add_actions in *; cbn [fold_left].
  - destruct w. cbn. now rewrite app_nil_r.
  - rewrite IH. cbn [add_action sid_ firstData_ cout cerr actions clock].
    now rewrite <- app_assoc.
Qed.

Lemma logout_first_exact (cx : Ctx) (w : World) :
  logout_first cx w = (Ok tt, add_actions (logout_actions cx) w).
Proof.
  unfold logout_first, logout_actions.
  destruct (getSessions (settings_ cx)) as [|s ss]; [reflexivity|].
  destruct (bool_decide (s ∈ registry cx)); reflexivity.
Qed.

Lemma tick_silent (cx : Ctx) (w : World) : tick cx eng w = (Ok tt, later w).
Proof. rewrite tick_run, silent. reflexivity. Qed.

Lemma block_silent (cx : Ctx) (k : nat) :
  forall w, block cx eng k w = (Ok tt, later_by k w).
Proof.
  induction k as [|k IH]; intros w; cbn [block later_by]; [reflexivity|].
  now rewrite run_bind, tick_silent, IH.
Qed.

Lemma wait_silent (cx : Ctx) (k : nat) :
  forall w,
    firstData_ w = false ->
    wait_until_pred cx eng k w = (Ok false, later_by k w).
Proof.
  induction k as [|k IH]; intros w Hoff; cbn [wait_until_pred later_by].
  - unfold load_firstData. now rewrite Hoff.
  - rewrite run_bind, tick_silent, run_bind. cbn [now]. rewrite run_bind.
    cbn [load_firstData later firstData_]. rewrite Hoff, andb_false_r.
    now apply IH.
Qed.

Lemma last_in (l : list SessionID) (dflt : SessionID) :
  l <> [] -> List.last l dflt ∈ l.
Proof.
  induction l as [|x l IH]; [congruence|]. intros _.
  destruct l as [|y l].
  - apply list_elem_of_here.
  - apply list_elem_of_further, IH. discriminate.
Qed.

End SilentRun.

(** X16.  Against a peer that never answers, a run whose settings load,
    whose sessions are created and whose initiator starts goes through
    all its steps and exits with code 0: it waits the whole 60000 ms for
    first data, prints the prompt, and after the operator's Enter sends
    the unsubscribe request of the last created session, requests the
    logout of lines 128-129, sleeps 300 ms and stops; the signal is still
    unset and the error stream untouched. *)
Theorem silent_peer_run `{Numeric} (eng : Engine) (argv0 arg : string)
  (rest : list string) (w : World) (settings : SessionSettings)
  (created : list SessionID) (d : Dictionary) :
  load_settings eng arg = inr settings ->
  create_sessions eng settings = inr created ->
  created <> [] ->
  settings_lookup settings (List.last created SessionID_default) = Some d ->
  start_result eng = None ->
  (forall t, worker eng t = []) ->
  let own := List.last created SessionID_default in
  exists w',
    main eng argv0 (arg :: rest) w = (Ok 0, w')
    /\ sid_ w' = own
    /\ firstData_ w' = false
    /\ cout w' = cout w +:+ "Running… press Enter to unsubscribe and logout." +:+ nl
    /\ cerr w' = cerr w
    /\ actions w'
       = actions w
         ++ [Start; SendToTarget (unsubscribe_request d) own]
         ++ logout_actions (mkCtx settings created)
         ++ [Sleep 300; Stop]
    /\ clock w' = (clock w + Z.to_nat 60000 + enter_delay eng + 300)%nat.
Proof.
  intros Hload Hcreate Hne Hd Hstart Hsilent own.
  assert (Hreg : own ∈ created) by now apply last_in.
  set (cx := mkCtx settings created).
  set (w1 := with_sid own (with_firstData false (with_sid SessionID_default w))).
  set (w2 := later_by (enter_delay eng)
               (add_cout ("Running… press Enter to unsubscribe and logout." +:+ nl)
                  (later_by (Z.to_nat 60000) (add_action Start w1)))).
  set (w3 := add_action Stop
               (later_by 300
                  (add_action (Sleep 300)
                     (add_actions (logout_actions cx)
                        (add_action (SendToTarget (unsubscribe_request d) own) w2))))).
  assert (Hsid2 : sid_ w2 = own).
  { subst w2. rewrite !later_by_eq. reflexivity. }
  assert (Hshut : shutdown eng cx w2 = (Ok 0, w3)).
  { unfold shutdown, unsubscribe_and_logout. rewrite !run_bind.
    rewrite (sendUnsubscribeAll_run cx w2 d); [| now rewrite Hsid2 | now rewrite Hsid2].
    rewrite logout_first_exact, run_bind. cbn [act]. rewrite run_bind.
    rewrite (block_silent eng Hsilent), run_bind. cbn [act].
    subst w3. now rewrite Hsid2. }
  assert (Hsession : run_session eng cx w1 = (Ok 0, w3)).
  { unfold run_session. rewrite Hstart, run_bind. cbn [act]. rewrite run_bind.
    unfold waitFirstDataMs. rewrite run_bind. cbn [load_firstData].
    change (firstData_ (add_action Start w1)) with false. cbv iota.
    rewrite (wait_silent eng Hsilent) by reflexivity.
    rewrite run_bind. cbn [print]. rewrite run_bind.
    rewrite (block_silent eng Hsilent). exact Hshut. }
  assert (Htry : main_try eng arg w = (Ok 0, w3)).
  { unfold main_try. rewrite Hload. cbn [from_engine]. rewrite ret_bind, run_bind.
    change (new_App w)
      with (Ok tt, with_firstData false (with_sid SessionID_default w)).
    cbv iota beta. rewrite Hcreate. cbn [from_engine].
    rewrite ret_bind, run_bind, created_sessions_run.
    destruct created as [|s l]; [congruence|]. exact Hsession. }
  exists w3. split.
  { rewrite main_with_argument, Htry. reflexivity. }
  subst w3 w2 w1. rewrite !later_by_eq, add_actions_eq.
  cbn [sid_ firstData_ cout cerr actions clock add_cout add_action with_sid
       with_firstData].
  split; [reflexivity|]. split; [reflexivity|]. split; [reflexivity|].
  split; [reflexivity|]. split; [|lia].
  rewrite <- !app_assoc. reflexivity.
Qed.

Lemma silent_peer_run_witness :
  exists w',
    main (H := Decimal.numeric) Sample.quiet_engine "client" ["client.cfg"%string]
      Sample.world = (Ok 0, w')
    /\ actions w'
       = [ Start; SendToTarget (unsubscribe_request Sample.dict) Sample.sid;
           Logout Sample.sid "Client exit"; Sleep 300; Stop ]
    /\ firstData_ w' = false.
Proof.
  destruct (silent_peer_run (H := Decimal.numeric) Sample.quiet_engine "client"
              "client.cfg" [] Sample.world [(Sample.sid, Sample.dict)] [Sample.sid]
              Sample.dict eq_refl eq_refl ltac:(discriminate) eq_refl eq_refl
              (fun _ => eq_refl))
    as (w' & Hrun & _ & Hflag & _ & _ & Hacts & _).
  exists w'. split; [exact Hrun|]. split; [|exact Hflag].
  rewrite Hacts. reflexivity.
Defined.
